(** * ZSpy: the zarr back end of HyperSpy's hierarchical signal format

    A shallow embedding of [hyperspy/io_plugins/zspy.py] and the properties
    its specification states about it.

    Conventions of the embedding
    - a Python [str] is a [string] (its UTF-8 text), [bytes] a [list byte];
    - [None]/a value is [option]; dictionaries and keyword arguments are
      [gmap string _];
    - the directory-backed zarr store is a flat map from a path to the
      group or array stored there, the way zarr lays a hierarchy out;
    - every function that touches the store, the signal or the warnings
      runs in the state-and-exception monad [M]. *)

From stdpp Require Import gmap strings list fin_maps.
From Stdlib Require Import ZArith Lia.
From Stdlib.Strings Require Import Ascii Byte.

Set Warnings "-register-all".
Open Scope Z_scope.

#[export] Instance byte_eq_decision : EqDecision byte := byte_eq_dec.

(** ** Python values *)

(** The values that travel through keyword arguments, attributes and
    metadata leaves. [PObj] is an opaque object known by its repr (a codec,
    a compressor, a domain object): it is true, hashable, and equal only
    to itself. *)
Inductive pyval :=
  | PNone
  | PBool (b : bool)
  | PInt (z : Z)
  | PStr (s : string)
  | PBytes (bs : list byte)
  | PList (l : list pyval)
  | PTuple (l : list pyval)
  | PObj (repr : string).

(** Python truthiness, [bool(v)]. *)
Definition truthy (v : pyval) : bool :=
  match v with
  | PNone => false
  | PBool b => b
  | PInt z => negb (z =? 0)
  | PStr s => negb (String.eqb s "")
  | PBytes bs => negb (Nat.eqb (length bs) 0)
  | PList l | PTuple l => negb (Nat.eqb (length l) 0)
  | PObj _ => true
  end.

(** Python [==] on these values: structural, a tuple never equals a list,
    and [True == 1], [False == 0]. *)
Fixpoint py_eqb (a b : pyval) {struct a} : bool :=
  let fix all2 (xs ys : list pyval) {struct xs} : bool :=
    match xs, ys with
    | [], [] => true
    | x :: xs', y :: ys' => py_eqb x y && all2 xs' ys'
    | _, _ => false
    end in
  match a, b with
  | PNone, PNone => true
  | PBool x, PBool y => Bool.eqb x y
  | PBool x, PInt y | PInt y, PBool x => (if x then 1 else 0) =? y
  | PInt x, PInt y => x =? y
  | PStr x, PStr y => String.eqb x y
  | PBytes x, PBytes y => bool_decide (x = y)
  | PList x, PList y => all2 x y
  | PTuple x, PTuple y => all2 x y
  | PObj x, PObj y => String.eqb x y
  | _, _ => false
  end.

(** Keyword arguments, [**kwds]. *)
Abbreviation kwargs := (gmap string pyval).

(** ** numpy dtypes *)

Inductive dtype :=
  | bool_ | int8 | uint8 | int16 | uint16 | int32 | uint32 | int64 | uint64
  | float16 | float32 | float64 | complex64 | complex128
  | bytes_ (n : Z)     (* dtype('S<n>') *)
  | str_ (n : Z)       (* dtype('U<n>') *)
  | object_.           (* dtype('O') *)

#[export] Instance dtype_eq_dec : EqDecision dtype.
Proof. solve_decision. Defined.

(** [np.dtype(dtype).itemsize] *)
Definition itemsize (dt : dtype) : Z :=
  match dt with
  | bool_ | int8 | uint8 => 1
  | int16 | uint16 | float16 => 2
  | int32 | uint32 | float32 => 4
  | int64 | uint64 | float64 | complex64 => 8
  | complex128 => 16
  | bytes_ n => n
  | str_ n => 4 * n
  | object_ => 8
  end.

(** ** The chunk planner *)

(** A numpy [int64] keeps the low 64 bits of a result, two's complement. *)
Definition wrap64 (z : Z) : Z := (z + 2 ^ 63) mod 2 ^ 64 - 2 ^ 63.

(** [np.prod(shape)] on a tuple of extents, each of which fits an
    [int64] as the extents of an array do: an [int64] product. *)
Definition np_prod (shape : list Z) : Z :=
  fold_left (fun acc d => wrap64 (acc * d)) shape 1.

(** The product of the extents as a mathematical integer. *)
Definition product (shape : list Z) : Z := fold_right Z.mul 1 shape.

(** The fixed threshold, [1e8] bytes. *)
Definition threshold : Z := 10 ^ 8.

(** [total_size = np.prod(shape) * typesize] *)
Definition total_size (shape : list Z) (dt : dtype) : Z :=
  wrap64 (np_prod shape * itemsize dt).

(** [_get_signal_chunks(shape, dtype, signal_axes=None)], zspy.py 92-112.
    [None] stands for the store's default chunking. The body ends after the
    threshold test, so a call that passes it falls off the end of the
    function, which in Python returns [None]. *)
Definition _get_signal_chunks (shape : list Z) (dt : dtype)
    (signal_axes : option (list Z)) : option (list Z) :=
  let typesize := itemsize dt in
  match signal_axes with
  | None => None
  | Some _ =>
      let total_size := wrap64 (np_prod shape * typesize) in
      if total_size <? threshold then None
      else None
  end.

(** ** Arrays handed to the writer *)

(** A numpy array: shape, dtype and the elements in C order. A ragged array
    has dtype [object_] and one [PList] of integers per element. *)
Record ndarray := NdArray {
  nd_shape : list Z;
  nd_dtype : dtype;
  nd_items : list pyval
}.

(** A dask array: as above plus [chunks], the block lengths along each
    axis, e.g. ((50,), (25, 25, 25, 25)). *)
Record dask_array := DaskArray {
  da_shape : list Z;
  da_dtype : dtype;
  da_chunks : list (list Z);
  da_items : list pyval
}.

(** [isinstance(data, da.Array)] separates the two. *)
Inductive source :=
  | Dense (a : ndarray)
  | Lazy (d : dask_array).

Definition source_shape (data : source) : list Z :=
  match data with Dense a => nd_shape a | Lazy d => da_shape d end.

(** ** Strings *)

(** [c in s] and [s.replace(c, d)] for one-character [c] and [d]. *)
Fixpoint str_contains (c : ascii) (s : string) : bool :=
  match s with
  | EmptyString => false
  | String a s' => Ascii.eqb a c || str_contains c s'
  end.

Fixpoint str_replace (c d : ascii) (s : string) : string :=
  match s with
  | EmptyString => EmptyString
  | String a s' => String (if Ascii.eqb a c then d else a) (str_replace c d s')
  end.

(** [s.split(c)]: the segments between the occurrences of [c]. *)
Fixpoint split_on (c : ascii) (s : string) : list string :=
  match s with
  | EmptyString => [EmptyString]
  | String a s' =>
      if Ascii.eqb a c then EmptyString :: split_on c s'
      else match split_on c s' with
           | seg :: rest => String a seg :: rest
           | [] => [String a EmptyString]
           end
  end.

(** ["/".join(segments)] *)
Definition join_path (segments : list string) : string :=
  match segments with
  | [] => ""
  | s :: rest => fold_left (fun acc x => acc +:+ "/" +:+ x) rest s
  end.

(** ** Paths inside a zarr store *)

Definition backslash : ascii := Ascii.ascii_of_nat 92.

(** The loops of [normalize_storage_path] that drop the slashes at the
    front and at the end, and the one that keeps the first of a run of
    slashes. *)
Fixpoint strip_leading (c : ascii) (s : string) : string :=
  match s with
  | EmptyString => EmptyString
  | String a s' => if Ascii.eqb a c then strip_leading c s' else s
  end.

Fixpoint strip_trailing (c : ascii) (s : string) : string :=
  match s with
  | EmptyString => EmptyString
  | String a s' =>
      let r := strip_trailing c s' in
      if Ascii.eqb a c && String.eqb r "" then EmptyString else String a r
  end.

Fixpoint collapse_slashes (previous_slash : bool) (s : string) : string :=
  match s with
  | EmptyString => EmptyString
  | String a s' =>
      if Ascii.eqb a "/" then
        if previous_slash then collapse_slashes true s'
        else String a (collapse_slashes true s')
      else String a (collapse_slashes false s')
  end.

(** ** The store *)

(** What a zarr array keeps: its creation parameters and its elements.
    [za_options] holds the remaining creation keywords (compressor, ...). *)
Record zarray := ZArray {
  za_shape : list Z;
  za_dtype : dtype;
  za_chunks : list Z;
  za_object_codec : option pyval;
  za_options : kwargs;
  za_items : list pyval
}.

(** A path of the store holds a group or an array; both carry attributes. *)
Inductive entry :=
  | EGroup (attrs : kwargs)
  | EArray (attrs : kwargs) (a : zarray).

Definition entry_attrs (e : entry) : kwargs :=
  match e with EGroup at_ => at_ | EArray at_ _ => at_ end.

Definition entry_set_attr (k : string) (v : pyval) (e : entry) : entry :=
  match e with
  | EGroup at_ => EGroup (<[k := v]> at_)
  | EArray at_ a => EArray (<[k := v]> at_) a
  end.

(** A path lies under directory [d] when it is [d] or starts with [d/]. *)
Definition under (d k : string) : Prop :=
  k = d \/ String.prefix (d +:+ "/") k = true.

#[export] Instance under_dec d k : Decision (under d k).
Proof. unfold under. apply _. Defined.

(** [rmdir]: everything under [d] is removed. *)
Definition rmdir (d : string) (fs : gmap string entry) : gmap string entry :=
  filter (fun kv => ~ under d kv.1) fs.

(** ** Exceptions, events and the monad *)

Inductive exn :=
  | AttributeError (msg : string)
  | TypeError (msg : string)
  | ValueError (msg : string)
  | KeyError (msg : string)
  | ContainsGroupError (path : string)
  | ContainsArrayError (path : string)
  | OtherError (cls msg : string).

Inductive result (A : Type) :=
  | Ok (a : A)
  | Raise (e : exn).
Arguments Ok {A} a.
Arguments Raise {A} e.

(** The calls into the warnings module and into the array back ends, in
    the order they were made. *)
Inductive event :=
  | Warned (msg : string)
  | Rechunked (chunks : list Z)
  | ToZarr (url : string) (overwrite : bool) (kw : kwargs)
  | OpenedArray (path mode : string)
  | RequiredDataset (path : string)
  | AssignedItems (path : string).

(** The part of a signal that [file_writer] and the writer look at:
    [metadata.General.title] ([None] for a title that is None),
    the node [metadata.Signal] as a dictionary,
    [axes_manager.signal_dimension] and [data]. *)
Record signal := Signal {
  title : option string;
  Signal_md : kwargs;
  signal_dimension : Z;
  data : source
}.

(** The mutable state: the file system, the caller's signal object and the
    log of events. *)
Record world := World {
  w_fs : gmap string entry;
  w_signal : signal;
  w_log : list event
}.

Definition set_fs (f : gmap string entry -> gmap string entry) (w : world) : world :=
  World (f (w_fs w)) (w_signal w) (w_log w).

Definition set_Signal_md (f : kwargs -> kwargs) (w : world) : world :=
  let s := w_signal w in
  World (w_fs w)
        (Signal (title s) (f (Signal_md s)) (signal_dimension s) (data s))
        (w_log w).

Definition log_event (ev : event) (w : world) : world :=
  World (w_fs w) (w_signal w) (w_log w ++ [ev]).

Definition M (A : Type) : Type := world -> world * result A.

#[export] Instance M_ret : MRet M := fun A a w => (w, Ok a).

#[export] Instance M_bind : MBind M := fun A B k m w =>
  match m w with
  | (w', Ok a) => k a w'
  | (w', Raise e) => (w', Raise e)
  end.

Definition raise {A} (e : exn) : M A := fun w => (w, Raise e).
Definition get_world : M world := fun w => (w, Ok w).
Definition modify (f : world -> world) : M unit := fun w => (f w, Ok tt).

(** [try: body  except BaseException as e: handler(e)] *)
Definition try_except {A} (body : M A) (handler : exn -> M A) : M A := fun w =>
  match body w with
  | (w', Ok a) => (w', Ok a)
  | (w', Raise e) => handler e w'
  end.

(** [try: body  finally: cleanup]. The clean-up runs on both exits; the
    outcome of the body stands unless the clean-up itself raises. *)
Definition try_finally {A} (body : M A) (cleanup : M unit) : M A := fun w =>
  match body w with
  | (w', r) =>
      match cleanup w' with
      | (w'', Ok _) => (w'', r)
      | (w'', Raise e) => (w'', Raise e)
      end
  end.

(** ** zarr groups and arrays *)

(** A handle on a group or an array: the directory of its store
    ([_store.dir_path()]) and its path inside the store ("" for the root). *)
Record handle := Handle {
  h_store : string;
  h_path : string
}.

(** What [zarr.open] returns. *)
Inductive node :=
  | GroupNode (g : handle)
  | ArrayNode (a : handle).

Definition node_handle (n : node) : handle :=
  match n with GroupNode h | ArrayNode h => h end.

(** [normalize_storage_path(path)] of zarr on a [str]: a backslash
    counts as a slash, slashes at either end are dropped and runs of them
    collapsed; a segment "." or ".." is refused. *)
Definition normalize_storage_path (path : string) : result string :=
  if String.eqb path "" then Ok ""
  else
    let path := str_replace backslash "/" path in
    let path := strip_leading "/" path in
    let path := strip_trailing "/" path in
    let path := collapse_slashes false path in
    let segments := split_on "/" path in
    if existsb (fun s => String.eqb s "." || String.eqb s "..") segments then
      Raise (ValueError "path containing '.' or '..' segment not allowed")
    else Ok path.

(** [group._item_path(item)], normalised once more as every store
    function does with the path it is given: the item is put under the
    group's own path unless it starts with a slash. *)
Definition item_path (g : handle) (item : string) : result string :=
  let absolute := match item with String "/" _ => true | _ => false end in
  match normalize_storage_path item with
  | Raise e => Raise e
  | Ok path =>
      normalize_storage_path
        (if negb absolute && negb (String.eqb (h_path g) "")
         then h_path g +:+ "/" +:+ path else path)
  end.

(** Where the file system keeps the node at [path] of the store in [dir]. *)
Definition fs_key (dir path : string) : string :=
  if String.eqb path "" then dir else dir +:+ "/" +:+ path.

Definition handle_key (h : handle) : string := fs_key (h_store h) (h_path h).

(** [zarr.group(store=NestedDirectoryStore(filename), overwrite=True)]:
    the directory is emptied and a root group without attributes is made. *)
Definition zarr_group_overwrite (filename : string) : M node :=
  modify (set_fs (fun fs => <[filename := EGroup ∅]> (rmdir filename fs)));;
  mret (GroupNode (Handle filename "")).

(** [zarr.open(filename)], mode "a": what is there is opened, a missing
    root group is created. *)
Definition zarr_open (filename : string) : M node :=
  w ← get_world;
  match w_fs w !! filename with
  | Some (EArray _ _) => mret (ArrayNode (Handle filename ""))
  | Some (EGroup _) => mret (GroupNode (Handle filename ""))
  | None =>
      modify (set_fs (fun fs => <[filename := EGroup ∅]> fs));;
      mret (GroupNode (Handle filename ""))
  end.

(** [f.attrs[k] = v] *)
Definition attrs_set (n : node) (k : string) (v : pyval) : M unit :=
  modify (set_fs (fun fs => alter (entry_set_attr k v) (handle_key (node_handle n)) fs)).

(** The paths above [path] in a store, the root first:
    ["/".join(segments[:i])] for every [i] below the number of segments. *)
Definition parent_paths (path : string) : list string :=
  if String.eqb path "" then []
  else
    let segments := split_on "/" path in
    map (fun i => join_path (take i segments)) (seq 0 (length segments)).

(** [_init_group_metadata(store, overwrite, path)]: with [overwrite] what
    is under the path is removed, without it an array or a group there is
    an error; then the group is made, without attributes. *)
Definition init_group_metadata (store path : string) (overwrite : bool) : M unit :=
  let key := fs_key store path in
  w ← get_world;
  if overwrite then
    modify (set_fs (fun fs => <[key := EGroup ∅]> (rmdir key fs)))
  else
    match w_fs w !! key with
    | Some (EArray _ _) => raise (ContainsArrayError path)
    | Some (EGroup _) => raise (ContainsGroupError path)
    | None => modify (set_fs (fun fs => <[key := EGroup ∅]> fs))
    end.

(** [_require_parent_group(path, store, overwrite)]: going down from the
    root, a parent that is an array is made a group (an error without
    [overwrite]) and a parent that is missing is created. *)
Fixpoint require_groups (store : string) (overwrite : bool) (parents : list string)
    : M unit :=
  match parents with
  | [] => mret tt
  | p :: rest =>
      w ← get_world;
      match w_fs w !! fs_key store p with
      | Some (EArray _ _) => init_group_metadata store p overwrite
      | Some (EGroup _) => mret tt
      | None => init_group_metadata store p false
      end;;
      require_groups store overwrite rest
  end.

Definition require_parent_group (store path : string) (overwrite : bool) : M unit :=
  require_groups store overwrite (parent_paths path).

(** [f.create_group(name)]: [init_group] at the item's path, which makes
    the parents that are missing and refuses a path where an array or a
    group already is; an [Array] has no such method. *)
Definition create_group (n : node) (name : string) : M node :=
  match n with
  | ArrayNode _ =>
      raise (AttributeError "'Array' object has no attribute 'create_group'")
  | GroupNode g =>
      match item_path g name with
      | Raise e => raise e
      | Ok path =>
          require_parent_group (h_store g) path false;;
          init_group_metadata (h_store g) path false;;
          mret (GroupNode (Handle (h_store g) path))
      end
  end.

(** ** Writing one dataset *)

(** [numcodecs.VLenArray(int)], [numcodecs.JSON()], the dtype [object] and
    [Blosc(cname='zstd', clevel=1)] as keyword values. *)
Definition VLenArray_int : pyval := PObj "VLenArray(int)".
Definition JSON_codec : pyval := PObj "JSON()".
Definition py_object : pyval := PObj "object".
Definition Blosc_zstd_1 : pyval := PObj "Blosc(cname='zstd', clevel=1)".

(** [np.dtype(v)] for the dtype arguments that occur as keyword values. *)
Definition np_dtype (v : pyval) : option dtype :=
  match v with
  | PObj "object" => Some object_
  | PStr "bool" => Some bool_
  | PStr "int8" => Some int8
  | PStr "uint8" => Some uint8
  | PStr "int16" => Some int16
  | PStr "uint16" => Some uint16
  | PStr "int32" => Some int32
  | PStr "uint32" => Some uint32
  | PStr "int64" => Some int64
  | PStr "uint64" => Some uint64
  | PStr "float16" => Some float16
  | PStr "float32" => Some float32
  | PStr "float64" => Some float64
  | PStr "complex64" => Some complex64
  | PStr "complex128" => Some complex128
  | _ => None
  end.

(** The handle on an array with the chunk shape it read when it was made
    ([dset.path], [dset.chunks]). *)
Record dataset := Dataset {
  ds_store : string;
  ds_path : string;
  ds_chunks : list Z
}.

(** [data.chunks] and [dset.chunks] as Python sees them: a tuple of tuples
    of block lengths, and a tuple of ints. *)
Definition dask_chunks_py (d : dask_array) : pyval :=
  PTuple (map (fun bs => PTuple (map PInt bs)) (da_chunks d)).

Definition zarr_chunks_py (cs : list Z) : pyval := PTuple (map PInt cs).

(** The blocks of length [c] that cover an axis of length [n]; the last
    one holds the remainder. *)
Definition blocks (n c : Z) : list Z :=
  if n =? 0 then [0]
  else replicate (Z.to_nat (n / c)) c ++ (if n mod c =? 0 then [] else [n mod c]).

(** [data.rechunk(chunks)] with one block length per axis. *)
Definition rechunk (d : dask_array) (chunks : list Z) : M dask_array :=
  if negb (Nat.eqb (length chunks) (length (da_shape d))) then
    raise (ValueError "Provided chunks are not consistent with shape")
  else if negb (forallb (fun c => 0 <? c) chunks) then
    raise (ValueError "chunks must be positive")
  else
    modify (log_event (Rechunked chunks));;
    mret (DaskArray (da_shape d) (da_dtype d)
                    (zip_with blocks (da_shape d) chunks) (da_items d)).

(** dask accepts for a bulk write only chunkings in which, along every
    axis, all blocks but the last are equal and the last is no longer. *)
Definition regular_axis (bs : list Z) : bool :=
  match bs with
  | [] => true
  | b :: rest =>
      forallb (fun x => x =? b) (List.removelast (b :: rest)) && (List.last (b :: rest) b <=? b)
  end.

Definition regular_chunks (chunks : list (list Z)) : bool :=
  forallb regular_axis chunks.

(** [arr[:] = items] on an array: the elements are replaced, the array's
    layout stays. zarr wants the value to have the array's shape. *)
Definition assign_items (key : string) (shape : list Z) (items : list pyval) : M unit :=
  w ← get_world;
  match w_fs w !! key with
  | Some (EArray at_ a) =>
      if decide (shape = za_shape a) then
        modify (log_event (AssignedItems key));;
        modify (set_fs (fun fs =>
          <[key := EArray at_ (ZArray (za_shape a) (za_dtype a) (za_chunks a)
                                      (za_object_codec a) (za_options a) items)]> fs))
      else raise (ValueError "parameter 'value': array has the wrong shape")
  | _ => raise (KeyError key)
  end.

(** [group[key]]: the array or the group at the item's path. *)
Definition group_getitem (group : handle) (key : string) : M node :=
  match item_path group key with
  | Raise e => raise e
  | Ok path =>
      w ← get_world;
      match w_fs w !! fs_key (h_store group) path with
      | Some (EArray _ _) => mret (ArrayNode (Handle (h_store group) path))
      | Some (EGroup _) => mret (GroupNode (Handle (h_store group) path))
      | None => raise (KeyError key)
      end
  end.

(** The name under which [Group.__setitem__] files a value given for the
    slice [:]: the text of the slice. *)
Definition slice_all : string := "slice(None, None, None)".

(** [g[:] = value] on a group, for a value of object dtype:
    [Group.__setitem__] is [self.array(item, value, overwrite=True)], an
    array creation under the name of the slice; its parents are required,
    what was under that name is removed, and the creation stops at the
    missing object codec. *)
Definition group_setitem_all (g : handle) : M unit :=
  match item_path g slice_all with
  | Raise e => raise e
  | Ok path =>
      require_parent_group (h_store g) path true;;
      modify (set_fs (rmdir (fs_key (h_store g) path)));;
      raise (ValueError "missing object_codec for object array")
  end.

(** [node[:] = data[:]] for a numpy array of object dtype. *)
Definition setitem_all (n : node) (shape : list Z) (items : list pyval) : M unit :=
  match n with
  | ArrayNode h => assign_items (handle_key h) shape items
  | GroupNode g => group_setitem_all g
  end.

(** A keyword of [kwds] that repeats an argument the call binds itself
    makes the call a [TypeError]. *)
Definition repeats_argument (kwds : kwargs) (names : list string) : bool :=
  bool_decide (Exists (fun k => is_Some (kwds !! k)) names).

Definition without_keys (names : list string) (kw : kwargs) : kwargs :=
  foldr (fun k m => delete k m) kw names.

(** dask's own parameters of [to_zarr], the arguments that [zarr.create]
    gets by name from it, and the parameters of [zarr.open_array] that say
    where the array is. *)
Definition dask_keywords : list string :=
  ["component"; "storage_options"; "region"; "compute"; "return_stored"].

Definition create_arguments : list string :=
  ["shape"; "chunks"; "dtype"; "store"; "path"].

Definition store_keywords : list string :=
  ["path"; "chunk_store"; "storage_options"; "zarr_version"].

(** What the model takes from the libraries as it finds it. *)
Record library := Library {
  (** zarr's heuristic [guess_chunks(shape, typesize)], used when no chunk
      shape is asked for *)
  guess_chunks : list Z -> Z -> list Z;
  (** Python's [int(v)] for a [str], a [bytes] or an object *)
  int_of_text : pyval -> result Z;
  (** zarr's [normalize_chunks] for a [chunks] that is a [str], a [bytes]
      or an object *)
  chunks_of_other : pyval -> list Z -> Z -> result (list Z);
  (** [np.can_cast(from, to)] *)
  can_cast : dtype -> dtype -> bool;
  (** what dask makes of the keywords [component] and [storage_options]
      where one of them is given: the normalised path of the array inside
      the store at [url], or the exception *)
  dask_store_path : kwargs -> result string;
  (** what [zarr.open_array] makes of the keywords [path], [chunk_store],
      [storage_options] and [zarr_version] where one of them is given:
      the normalised path of the array inside the store, or the
      exception *)
  zarr_store_path : kwargs -> result string
}.

Section Datasets.

Variable lib : library.

(** [int(c)] *)
Definition py_int (c : pyval) : result Z :=
  match c with
  | PInt z => Ok z
  | PBool b => Ok (if b then 1 else 0)
  | PNone | PList _ | PTuple _ =>
      Raise (TypeError "int() argument must be a string, a bytes-like object or a real number")
  | _ => int_of_text lib c
  end.

(** The loop of [normalize_chunks] over the axes: [-1] and [None] stand
    for the whole axis, anything else goes through [int]. *)
Fixpoint chunk_lengths (shape : list Z) (cs : list pyval) : result (list Z) :=
  match shape, cs with
  | s :: shape', c :: cs' =>
      match (if py_eqb c (PInt (-1)) then Ok s
             else match c with PNone => Ok s | _ => py_int c end) with
      | Raise e => Raise e
      | Ok z =>
          match chunk_lengths shape' cs' with
          | Raise e => Raise e
          | Ok zs => Ok (z :: zs)
          end
      end
  | _, _ => Ok []
  end.

(** [normalize_chunks(chunks, shape, typesize)] of zarr: [None] and
    [True] ask for the heuristic, [False] for one chunk; an int stands
    for that length along every axis; a tuple or list that is too long
    is refused, one that is too short is completed with the extents of
    the axes it leaves out. *)
Definition normalize_chunks (chunks : pyval) (shape : list Z) (typesize : Z)
    : result (list Z) :=
  match chunks with
  | PNone | PBool true => Ok (guess_chunks lib shape typesize)
  | PBool false => Ok shape
  | PInt c => chunk_lengths shape (map (fun _ => PInt c) shape)
  | PTuple cs | PList cs =>
      if decide (length shape < length cs)%nat then
        Raise (ValueError "too many dimensions in chunks")
      else chunk_lengths shape (cs ++ map PInt (drop (length cs) shape))
  | _ => chunks_of_other lib chunks shape typesize
  end.

(** [init_array(store, shape, chunks, dtype, overwrite, path, **kw)] of
    zarr, for a normalised path: the parents are required; with
    [overwrite] what is under the path is removed, without it an array
    or a group there is an error; then the chunks are normalised and an
    array of object dtype is refused unless it comes with a codec (with
    filters the lack is a warning), and the array is made, empty. *)
Definition init_array (store path : string) (shape : list Z) (dt : dtype)
    (chunks : pyval) (overwrite : bool) (kw : kwargs) : M unit :=
  let key := fs_key store path in
  require_parent_group store path overwrite;;
  w ← get_world;
  (if overwrite then modify (set_fs (rmdir key))
   else match w_fs w !! key with
        | Some (EArray _ _) => raise (ContainsArrayError path)
        | Some (EGroup _) => raise (ContainsGroupError path)
        | None => mret tt
        end);;
  match normalize_chunks chunks shape (itemsize dt) with
  | Raise e => raise e
  | Ok cs =>
      (if bool_decide (dt = object_) && negb (bool_decide (is_Some (kw !! "object_codec")))
       then if truthy (default PNone (kw !! "filters"))
            then modify (log_event (Warned "missing object_codec for object array"))
            else raise (ValueError "missing object_codec for object array")
       else mret tt);;
      modify (set_fs (fun fs =>
        <[key := EArray ∅ (ZArray shape dt cs (kw !! "object_codec")
                             (delete "object_codec" kw) [])]> fs))
  end.

(** [data.to_zarr(url=url, overwrite=overwrite, **kw)] of dask: [region]
    is refused for a url that is a path, and so is an irregular
    chunking; the array is made by [zarr.create] in the store at [url],
    at its root or at [component], with the dask array's shape and dtype
    and the first block length of every axis as chunk shape; the data
    are stored unless [compute] is false. The keywords that are not
    dask's own go to [zarr.create], which binds [shape], [chunks],
    [dtype], [store] and [path] itself. *)
Definition to_zarr (d : dask_array) (url : string) (overwrite : bool)
    (kw : kwargs) : M unit :=
  modify (log_event (ToZarr url overwrite kw));;
  if negb (py_eqb (default PNone (kw !! "region")) PNone) then
    raise (ValueError "Cannot use `region` keyword when url is not a `zarr.Array`.")
  else if negb (regular_chunks (da_chunks d)) then
    raise (ValueError "Attempt to save array to zarr with irregular chunking")
  else
    match (if bool_decide (is_Some (kw !! "component") \/ is_Some (kw !! "storage_options"))
           then dask_store_path lib kw else Ok "") with
    | Raise e => raise e
    | Ok path =>
        let options :=
          without_keys dask_keywords kw in
        if repeats_argument options create_arguments then
          raise (TypeError "create() got multiple values for keyword argument")
        else
          init_array url path (da_shape d) (da_dtype d)
            (PList (map (fun bs => PInt (hd 0 bs)) (da_chunks d))) overwrite options;;
          if truthy (default (PBool true) (kw !! "compute")) then
            modify (set_fs (alter (fun e =>
              match e with
              | EArray at_ a =>
                  EArray at_ (ZArray (za_shape a) (za_dtype a) (za_chunks a)
                                     (za_object_codec a) (za_options a) (da_items d))
              | e => e
              end) (fs_key url path)))
          else mret tt
    end.

(** [group.require_dataset(name, shape, dtype=dtype, exact=exact, **kw)]:
    an array that is there is returned as it is after its shape and its
    dtype were found to agree ([TypeError] otherwise); else the array is
    created by [zarr.create], which binds [store], [path] and
    [chunk_store] itself and takes [chunks] and [overwrite] from the
    keywords. *)
Definition require_dataset (group : handle) (name : string) (shape : list Z)
    (dt : pyval) (exact : pyval) (kw : kwargs) : M dataset :=
  match item_path group name with
  | Raise e => raise e
  | Ok path =>
      let key := fs_key (h_store group) path in
      modify (log_event (RequiredDataset path));;
      w ← get_world;
      match w_fs w !! key with
      | Some (EArray _ a) =>
          if negb (bool_decide (shape = za_shape a)) then
            raise (TypeError "shape do not match existing array")
          else
            match np_dtype dt with
            | None => raise (TypeError "data type not understood")
            | Some dt' =>
                if (if truthy exact then negb (bool_decide (dt' = za_dtype a))
                    else negb (can_cast lib dt' (za_dtype a)))
                then raise (TypeError "dtypes do not match")
                else mret (Dataset (h_store group) path (za_chunks a))
            end
      | _ =>
          if repeats_argument kw ["store"; "path"; "chunk_store"] then
            raise (TypeError "create() got multiple values for keyword argument")
          else
            match np_dtype dt with
            | None => raise (TypeError "data type not understood")
            | Some dt' =>
                init_array (h_store group) path shape dt'
                  (default (PBool true) (kw !! "chunks"))
                  (truthy (default (PBool false) (kw !! "overwrite")))
                  (without_keys ["chunks"; "overwrite"] kw);;
                w ← get_world;
                match w_fs w !! key with
                | Some (EArray _ a) => mret (Dataset (h_store group) path (za_chunks a))
                | _ => raise (KeyError path)
                end
            end
      end
  end.

(** [zarr.open_array(path, mode="w", shape=..., dtype=..., chunks=...,
    **kw)]: [init_array] with [overwrite=True] in the store in directory
    [path], at its root unless the keywords say otherwise. *)
Definition open_array_w (path : string) (shape : list Z) (dt : dtype)
    (chunks : pyval) (kw : kwargs) : M dataset :=
  modify (log_event (OpenedArray path "w"));;
  match (if repeats_argument kw store_keywords
         then zarr_store_path lib kw else Ok "") with
  | Raise e => raise e
  | Ok inner =>
      init_array path inner shape dt chunks true
        (without_keys store_keywords kw);;
      w ← get_world;
      match w_fs w !! fs_key path inner with
      | Some (EArray _ a) => mret (Dataset path inner (za_chunks a))
      | _ => raise (KeyError path)
      end
  end.

(** [get_object_dset(group, data, key, chunks, **kwds)], zspy.py 78-89.
    [kwds] cannot repeat a parameter of the function, nor can
    [these_kwds] repeat an argument of the call of [require_dataset]:
    either is a [TypeError] of the call. *)
Definition get_object_dset (group : handle) (data : source) (key : string)
    (chunks : pyval) (kwds : kwargs) : M dataset :=
  if repeats_argument kwds ["group"; "data"; "key"; "chunks"] then
    raise (TypeError "get_object_dset() got multiple values for argument")
  else
  let these_kwds := kwds in
  let these_kwds :=
    <["chunks" := chunks]> (<["exact" := PBool true]> (<["dtype" := py_object]> these_kwds)) in
  if bool_decide (is_Some (these_kwds !! "object_codec")) then
    raise (TypeError "require_dataset() got multiple values for keyword argument 'object_codec'")
  else if bool_decide (is_Some (these_kwds !! "name") \/ is_Some (these_kwds !! "shape")) then
    raise (TypeError "require_dataset() got multiple values for argument")
  else
    dset ← require_dataset group key (source_shape data)
             (default PNone (these_kwds !! "dtype"))
             (default (PBool false) (these_kwds !! "exact"))
             (<["object_codec" := VLenArray_int]>
                (delete "exact" (delete "dtype" these_kwds)));
    mret dset.

(** [_store_data(data, dset, group, key, chunks, **kwds)],
    zspy.py 115-140. [kwds] cannot repeat a parameter of the function,
    and in both calls that take [**kwds] a keyword that is also given by
    name is a [TypeError] of the call. *)
Definition _store_data (data : source) (dset : dataset) (group : handle)
    (key : string) (chunks : pyval) (kwds : kwargs) : M unit :=
  if repeats_argument kwds ["data"; "dset"; "group"; "key"; "chunks"] then
    raise (TypeError "_store_data() got multiple values for argument")
  else
  match data with
  | Lazy d =>
      d ← (if negb (py_eqb (dask_chunks_py d) (zarr_chunks_py (ds_chunks dset)))
           then rechunk d (ds_chunks dset)
           else mret d);
      let path := h_store group +:+ "/" +:+ ds_path dset in
      if repeats_argument kwds ["url"; "overwrite"] then
        raise (TypeError "to_zarr() got multiple values for keyword argument")
      else to_zarr d path true kwds
  | Dense a =>
      if bool_decide (nd_dtype a = object_) then
        n ← group_getitem group key;
        setitem_all n (nd_shape a) (nd_items a)
      else
        let path := h_store group +:+ "/" +:+ ds_path dset in
        if repeats_argument kwds ["store"; "mode"; "shape"; "dtype"] then
          raise (TypeError "open_array() got multiple values for keyword argument")
        else
          dset ← open_array_w path (nd_shape a) (nd_dtype a) chunks kwds;
          assign_items (fs_key (ds_store dset) (ds_path dset)) (nd_shape a) (nd_items a)
  end.

End Datasets.


(** ** The signal's metadata node *)

Definition get_signal : M signal := fun w => (w, Ok (w_signal w)).

(** [smd.<name> = v] on [smd = signal.metadata.Signal]; the node is shared
    with the caller's signal. *)
Definition smd_setattr (name : string) (v : pyval) : M unit :=
  modify (set_Signal_md (fun md => <[name := v]> md)).

(** [del smd.<name>]: an absent attribute cannot be deleted. *)
Definition smd_delattr (name : string) : M unit :=
  w ← get_world;
  match Signal_md (w_signal w) !! name with
  | Some _ => modify (set_Signal_md (fun md => delete name md))
  | None => raise (AttributeError name)
  end.

(** [warnings.warn(msg)]: the warning is reported and execution goes on,
    as the warnings module does unless a filter set up by the caller turns
    warnings into errors. *)
Definition warn (msg : string) : M unit := modify (log_event (Warned msg)).

(** ** The plugin *)

Definition format_name : string := "ZSpy".

(** The writer object: the file, the experiment group and the keywords it
    was made with, and what [ZspyWriter.__init__] sets on it. *)
Record ZspyWriter := {
  zw_file : node;
  zw_group : node;
  zw_kwds : kwargs;
  zw_Dataset : string;
  unicode_kwds : kwargs;
  ragged_kwds : kwargs
}.

(** The name of the experiment group, zspy.py 193-197: the title, or
    "__unnamed__" for a title that is false, with "/" turned into "-". *)
Definition experiment_group_name (title : option string) : string :=
  let group_name :=
    match title with
    | Some t => if truthy (PStr t) then t else "__unnamed__"
    | None => "__unnamed__"
    end in
  if str_contains "/"%char group_name then str_replace "/"%char "-"%char group_name
  else group_name.

(** A value that can be looked up in a set: lists cannot. *)
Fixpoint hashable (v : pyval) : bool :=
  match v with
  | PList _ => false
  | PTuple l => forallb hashable l
  | _ => true
  end.

(** [zarr.open(filename, mode=mode, **kwds)] on a directory: "w" makes the
    root group afresh, "w-" and "x" make it where nothing is, "a" opens
    what is there or makes the root group; every other mode opens what is
    there and fails where nothing is. The other keywords configure the
    store and are left out. *)
Definition zarr_open_mode (filename : string) (mode : pyval) : M node :=
  if negb (hashable mode) then raise (TypeError "unhashable type")
  else
  match mode with
  | PStr "a" => zarr_open filename
  | PStr "w" => zarr_group_overwrite filename
  | PStr "w-" | PStr "x" =>
      w ← get_world;
      match w_fs w !! filename with
      | Some (EArray _ _) => raise (ContainsArrayError filename)
      | Some (EGroup _) => raise (ContainsGroupError filename)
      | None =>
          modify (set_fs (fun fs => <[filename := EGroup ∅]> fs));;
          mret (GroupNode (Handle filename ""))
      end
  | _ =>
      w ← get_world;
      match w_fs w !! filename with
      | Some (EArray _ _) => mret (ArrayNode (Handle filename ""))
      | Some (EGroup _) => mret (GroupNode (Handle filename ""))
      | None => raise (OtherError "PathNotFoundError" filename)
      end
  end.

Section Zspy.

(** [version] of [hyperspy.io_plugins.hspy], the version the writer
    stamps and the reader supports. *)
Variable version : string.

(** [HierarchicalWriter.__init__(file, signal, group, **kwds)] and
    [HierarchicalWriter.write()], of [hyperspy.io_plugins.hierarchical]:
    any computation on the store and the signal. *)
Variable HierarchicalWriter_init : node -> node -> kwargs -> M unit.
Variable HierarchicalWriter_write : ZspyWriter -> M unit.

(** [ZspyWriter(file, signal, expg, **kwargs)], zspy.py 156-167. The
    attribute [overwrite_dataset] is the inherited helper closed over
    [_get_signal_chunks], [get_object_dset] and [_store_data]. *)
Definition ZspyWriter_init (file expg : node) (kw : kwargs) : M ZspyWriter :=
  HierarchicalWriter_init file expg kw;;
  mret {| zw_file := file; zw_group := expg; zw_kwds := kw;
          zw_Dataset := "Array";
          unicode_kwds := {[ "dtype" := py_object; "object_codec" := JSON_codec ]};
          ragged_kwds := {[ "dtype" := py_object;
                            "object_codec" := VLenArray_int;
                            "exact" := PBool true ]} |}.

(** zspy.py 182-198: the keywords are completed, the root is made or
    opened and stamped, and the experiment group is created. *)
Definition open_experiment_group (filename : string) (kwds : kwargs)
    : M (node * node * kwargs) :=
  let kwds :=
    if bool_decide (is_Some (kwds !! "compressor")) then kwds
    else <["compressor" := Blosc_zstd_1]> kwds in
  f ← (if bool_decide (is_Some (kwds !! "write_to_storage"))
          && truthy (default PNone (kwds !! "write_to_storage"))
       then zarr_open filename
       else zarr_group_overwrite filename);
  attrs_set f "file_format" (PStr "ZSpy");;
  attrs_set f "file_format_version" (PStr version);;
  exps ← create_group f "Experiments";
  signal ← get_signal;
  let group_name := experiment_group_name (title signal) in
  expg ← create_group exps group_name;
  mret (f, expg, kwds).

(** The body of the [try] block, zspy.py 209-210. *)
Definition ZspyWriter_run (f expg : node) (kwds : kwargs) : M unit :=
  writer ← ZspyWriter_init f expg kwds;
  HierarchicalWriter_write writer.

(** zspy.py 200-214: [record_by] is set on the signal's metadata, the
    writer is made and run, and [record_by] is deleted in the [finally]
    block; [except BaseException: raise] hands an exception on as it is. *)
Definition write_with_record_by (f expg : node) (kwds : kwargs) : M unit :=
  signal ← get_signal;
  (if signal_dimension signal =? 1 then smd_setattr "record_by" (PStr "spectrum")
   else if signal_dimension signal =? 2 then smd_setattr "record_by" (PStr "image")
   else smd_setattr "record_by" (PStr ""));;
  try_finally
    (try_except (ZspyWriter_run f expg kwds) (fun e => raise e))
    (smd_delattr "record_by").

(** [file_writer(filename, signal, *args, **kwds)], zspy.py 170-214; the
    signal is the one of the world. *)
Definition file_writer (filename : string) (kwds : kwargs) : M unit :=
  '(f, expg, kwds) ← open_experiment_group filename kwds;
  write_with_record_by f expg kwds.

(** The reader: [reader.version] has the type of distutils'
    [LooseVersion]; [HierarchicalReader.__init__(file)] finds it,
    [reader.version > version] compares it with the supported version and
    [HierarchicalReader.read(lazy)] returns the payload. *)
Variable LooseVersion : Type.
Variable payload : Type.
Variable HierarchicalReader_init : node -> M LooseVersion.
Variable version_gt : LooseVersion -> string -> bool.

Record ZspyReader := {
  zr_file : node;
  zr_version : LooseVersion;
  zr_Dataset : string;
  zr_Group : string
}.

Variable HierarchicalReader_read : ZspyReader -> bool -> M payload.

(** [ZspyReader(file)], zspy.py 149-153 *)
Definition ZspyReader_init (file : node) : M ZspyReader :=
  v ← HierarchicalReader_init file;
  mret {| zr_file := file; zr_version := v;
          zr_Dataset := "Array"; zr_Group := "Group" |}.

Definition newer_version_warning : string :=
  "This file was written using a newer version of the " +:+
  "HyperSpy zspy file format. I will attempt to load it, but, " +:+
  "if I fail, it is likely that I will be more successful at " +:+
  "this and other tasks if you upgrade me.".

(** [file_reader(filename, lazy=False, **kwds)], zspy.py 217-237 *)
Definition file_reader (filename : string) (lazy : bool) (kwds : kwargs)
    : M payload :=
  let mode := default (PStr "r") (kwds !! "mode") in
  let kwds := delete "mode" kwds in
  f ← zarr_open_mode filename mode;
  reader ← ZspyReader_init f;
  (if version_gt (zr_version reader) version then warn newer_version_warning
   else mret tt);;
  HierarchicalReader_read reader lazy.

End Zspy.

(** ** UTF-8 *)





(** ** The type codec *)














Section Codec.

(** Which elements parse as numeric; section 4.1 does not say which
    texts do. *)
Variable numeric : pyval -> bool.








End Codec.



(** ** Sample collaborators and inputs for the examples *)

Definition sample_init : node -> node -> kwargs -> M unit :=
  fun _ _ _ => mret tt.

(** A small writer: a "metadata" group under the experiment group that
    records the [record_by] marker it finds on the signal. *)
Definition sample_write (zw : ZspyWriter) : M unit :=
  md ← create_group (zw_group zw) "metadata";
  s ← get_signal;
  attrs_set md "record_by" (default PNone (Signal_md s !! "record_by")).

(** A writer that fails halfway. *)
Definition failing_write (zw : ZspyWriter) : M unit :=
  create_group (zw_group zw) "metadata";;
  raise (OtherError "OSError" "No space left on device").

Definition spectrum : signal :=
  Signal (Some "EELS/OK") {[ "signal_type" := PStr "" ]} 1
         (Dense (NdArray [3] float64 [PInt 1; PInt 2; PInt 3])).

Definition image : signal :=
  Signal (Some "") {[ "signal_type" := PStr "" ]} 2
         (Dense (NdArray [2; 2] float64 [PInt 1; PInt 2; PInt 3; PInt 4])).

Definition empty_world (s : signal) : world := World ∅ s [].

(** A reader that takes the version from the root attribute and compares
    versions as strings. *)
Definition sample_reader_init (f : node) : M string :=
  w ← get_world;
  match w_fs w !! handle_key (node_handle f) with
  | Some e =>
      match entry_attrs e !! "file_format_version" with
      | Some (PStr v) => mret v
      | _ => mret "1.0"
      end
  | None => raise (OtherError "IOError" "not a valid format")
  end.

Definition sample_version_gt (v supported : string) : bool := String.ltb supported v.

Definition sample_read (r : ZspyReader string) (lazy : bool) : M (list string) :=
  w ← get_world;
  mret (map fst (map_to_list (w_fs w))).

(** ** Vocabulary of the statements *)

(** The marker of the signal kind. *)
Definition record_by_of (signal_dimension : Z) : string :=
  if signal_dimension =? 1 then "spectrum"
  else if signal_dimension =? 2 then "image"
  else "".

(** The world in which the signal carries the marker, and the one in
    which it does not. *)
Definition with_record_by (w : world) : world :=
  set_Signal_md
    (fun md => <["record_by" := PStr (record_by_of (signal_dimension (w_signal w)))]> md) w.

Definition without_record_by (w : world) : world :=
  set_Signal_md (fun md => delete "record_by" md) w.

(** [write_to_storage] is among the keywords and true. *)
Definition write_to_storage (kwds : kwargs) : bool :=
  bool_decide (is_Some (kwds !! "write_to_storage"))
  && truthy (default PNone (kwds !! "write_to_storage")).

(** The path of the experiment group of a signal inside the store. *)
Definition experiment_path (s : signal) : string :=
  "Experiments/" +:+ experiment_group_name (title s).

(** The keywords after [file_writer] has supplied its default compressor. *)
Definition with_compressor (kwds : kwargs) : kwargs :=
  if bool_decide (is_Some (kwds !! "compressor")) then kwds
  else <["compressor" := Blosc_zstd_1]> kwds.

(** The two format attributes. *)
Definition format_attrs (version : string) : kwargs :=
  <["file_format_version" := PStr version]> (<["file_format" := PStr "ZSpy"]> ∅).

(** The plugin with the sample collaborators, version "3.1". *)
Definition sample_file_writer : string -> kwargs -> M unit :=
  file_writer "3.1" sample_init sample_write.

(** A first save of [spectrum] to an empty file system; a second save, of
    [image], to the same path with [write_to_storage]; and that second
    save alone on an empty file system. *)
Definition first_save : world :=
  (sample_file_writer "/tmp/a.zspy" ∅ (empty_world spectrum)).1.

Definition second_save : world * result unit :=
  sample_file_writer "/tmp/a.zspy" {[ "write_to_storage" := PBool true ]}
    (World (w_fs first_save) image []).

Definition single_save : world * result unit :=
  sample_file_writer "/tmp/a.zspy" {[ "write_to_storage" := PBool true ]}
    (empty_world image).

(** The set-up of a save of [image], and of one of [spectrum]. *)
Definition image_setup : world * result (node * node * kwargs) :=
  open_experiment_group "3.1" "/tmp/a.zspy" ∅ (empty_world image).

Definition spectrum_setup : world * result (node * node * kwargs) :=
  open_experiment_group "3.1" "/tmp/a.zspy" ∅ (empty_world spectrum).

Definition root_node : node := GroupNode (Handle "/tmp/a.zspy" "").


(** A lazy array of shape (2, 4) in blocks ((2,), (2, 2)), the dataset it
    goes to, and a file system that already holds an array there. *)
Definition lazy_zeros : dask_array :=
  DaskArray [2; 4] float64 [[2]; [2; 2]]
            [PInt 0; PInt 0; PInt 0; PInt 0; PInt 0; PInt 0; PInt 0; PInt 0].

Definition sample_group : handle := Handle "/tmp/l.zspy" "Experiments/__unnamed__".

Definition sample_dset : dataset :=
  Dataset "/tmp/l.zspy" "Experiments/__unnamed__/data" [2; 2].

Definition stale_world : world :=
  World {[ "/tmp/l.zspy/Experiments/__unnamed__/data" :=
             EArray {[ "old" := PBool true ]}
                    (ZArray [1] int8 [1] None ∅ [PInt 7]) ]}
        image [].

(** The ragged array of two rows of lengths 2 and 3. *)
Definition ragged_rows : ndarray :=
  NdArray [2] object_ [PList [PInt 0; PInt 1]; PList [PInt 0; PInt 1; PInt 2]].

(** A stand-in for zarr's chunk heuristic: one chunk. *)
Definition one_chunk (shape : list Z) (typesize : Z) : list Z := shape.

(** Libraries for the examples: the heuristic above, no text that spells
    an int, no unusual chunks, casts between equal dtypes only, and no
    store options. *)
Definition sample_lib : library :=
  {| guess_chunks := one_chunk;
     int_of_text := fun _ => Raise (ValueError "invalid literal for int()");
     chunks_of_other := fun _ _ _ => Raise (TypeError "chunks must be integers");
     can_cast := fun a b => bool_decide (a = b);
     dask_store_path := fun _ => Raise (OtherError "NotImplementedError" "store options");
     zarr_store_path := fun _ => Raise (OtherError "NotImplementedError" "store options") |}.


(** Outside directory [d] the file system of [w'] is that of [w], and the
    signal and the log are the same. *)
Definition same_outside (d : string) (w w' : world) : Prop :=
  (forall k, ~ under d k -> w_fs w' !! k = w_fs w !! k) /\
  w_signal w' = w_signal w /\
  w_log w' = w_log w.

(** The attributes of the root before [file_writer] stamps it: those of
    the node that [write_to_storage] opened, none for a root made afresh. *)
Definition root_attrs_before (filename : string) (kwds : kwargs) (w : world) : kwargs :=
  if write_to_storage kwds then
    match w_fs w !! filename with
    | Some e => entry_attrs e
    | None => ∅
    end
  else ∅.

(** The root attributes of [e] after [file_writer] has stamped them. *)
Definition stamped (version : string) (e : entry) : entry :=
  entry_set_attr "file_format_version" (PStr version)
    (entry_set_attr "file_format" (PStr "ZSpy") e).

(** A file system whose path "/tmp/arr.zspy" holds an array. *)
Definition array_world : world :=
  World {[ "/tmp/arr.zspy" := EArray ∅ (ZArray [1] int8 [1] None ∅ [PInt 7]) ]}
        image [].

(** The world of the first save with [image] as the signal to save. *)
Definition saved_world : world := World (w_fs first_save) image [].

(** Outside directory [d] the file system of [w'] is that of [w], and the
    signal is the same; the log may have grown. *)
Definition touches_only (d : string) (w w' : world) : Prop :=
  (forall k, ~ under d k -> w_fs w' !! k = w_fs w !! k) /\
  w_signal w' = w_signal w.

(** The world after [get_object_dset] has made the dataset for the ragged
    rows with chunks (2,). *)
Definition ragged_world : world :=
  (get_object_dset sample_lib sample_group (Dense ragged_rows) "data"
     (PTuple [PInt 2]) {[ "compressor" := Blosc_zstd_1 ]} (empty_world image)).1.

(** Three floats. *)
Definition three_floats : ndarray :=
  NdArray [3] float64 [PInt 1; PInt 2; PInt 3].

(** A signal whose title holds a backslash, and one titled ".". *)
Definition backslash_signal : signal :=
  Signal (Some "a\b") {[ "signal_type" := PStr "" ]} 1
         (Dense (NdArray [3] float64 [PInt 1; PInt 2; PInt 3])).

(** A file system whose path "/tmp/o.zspy" holds a root group with an
    attribute of its own and nothing else. *)
Definition owned_world : world :=
  World {[ "/tmp/o.zspy" := EGroup {[ "owner" := PStr "me" ]} ]} image [].

(** The keywords that a call of [_store_data] with a lazy source cannot
    or must not hold for the plain bulk write: the parameters of
    [_store_data], the arguments [to_zarr] gets by name, dask's own
    keywords, and the arguments [zarr.create] gets by name. *)
Definition lazy_reserved : list string :=
  ["data"; "dset"; "group"; "key"; "chunks"] ++ ["url"; "overwrite"]
  ++ dask_keywords ++ create_arguments.

(** The same for a dense source: the parameters of [_store_data], the
    arguments [zarr.open_array] gets by name, and its keywords for the
    place of the array. *)
Definition dense_reserved : list string :=
  ["data"; "dset"; "group"; "key"; "chunks"] ++ ["store"; "mode"; "shape"; "dtype"]
  ++ store_keywords.


(** Every path above [path] in the store holds a group. *)
Definition parents_in_place (store path : string) (w : world) : Prop :=
  Forall (fun p => exists a, w_fs w !! fs_key store p = Some (EGroup a))
         (parent_paths path).

(** The partition of an array of shape [shape] into blocks of the chunk
    shape [cs], and the chunk shape zarr is given for it (the first block
    of every axis). *)
Definition partition (shape cs : list Z) : list (list Z) := zip_with blocks shape cs.

Definition first_blocks (chunks : list (list Z)) : list Z :=
  map (fun bs => hd 0 bs) chunks.



(** The keywords that [get_object_dset] hands to [require_dataset]. *)
Definition object_keywords (chunks : pyval) (kwds : kwargs) : kwargs :=
  <["object_codec" := VLenArray_int]>
    (delete "exact" (delete "dtype"
       (<["chunks" := chunks]> (<["exact" := PBool true]>
          (<["dtype" := py_object]> kwds))))).



(** ** The TIFF plugin, [hyperspy/io_plugins/tiff.py] *)

Module Tiff.

Definition format_name : string := "TIFF".

Definition description : string :=
  "Import/Export standard image formats Christoph Gohlke's tifffile library".

(** A value of [axes_label_codes]: a name, or traits' [Undefined]. *)
Inductive label :=
  | Name (s : string)
  | Undefined.

(** [axes_label_codes[axis]], tiff.py 41-58; [None] where the dictionary
    has no such key. *)
Definition axes_label_codes (axis : ascii) : option label :=
  match axis with
  | "X"%char => Some (Name "width")
  | "Y"%char => Some (Name "height")
  | "S"%char => Some (Name "sample")
  | "P"%char => Some (Name "plane")
  | "I"%char => Some (Name "image series")
  | "Z"%char => Some (Name "depth")
  | "C"%char => Some (Name "color|em-wavelength|channel")
  | "E"%char => Some (Name "ex-wavelength|lambda")
  | "T"%char => Some (Name "time")
  | "R"%char => Some (Name "region|tile")
  | "A"%char => Some (Name "angle")
  | "F"%char => Some (Name "phase")
  | "H"%char => Some (Name "lifetime")
  | "L"%char => Some (Name "exposure")
  | "V"%char => Some (Name "event")
  | "Q"%char => Some Undefined
  | "_"%char => Some Undefined
  | _ => None
  end.

(** [unicode(name)]: a name is itself, [Undefined] prints as its repr. *)
Definition unicode (l : label) : string :=
  match l with
  | Name s => s
  | Undefined => "<undefined>"
  end.

(** What [file_writer] reads of the signal: [data], [is_rgbx] and
    [mapped_parameters.title]. *)
Record signal := Signal {
  data : ndarray;
  is_rgbx : bool;
  title : string
}.

(** The call [imsave(filename, data, software=..., photometric=..., **kwds)]. *)
Record imsave_call := Imsave {
  call_filename : string;
  call_data : ndarray;
  call_software : string;
  call_photometric : string;
  call_kwds : kwargs
}.

(** What [file_reader] reads of an open [TiffFile]: [asarray()], the axes
    strings of its series, [is_rgb] and the tag values of its pages. *)
Record tiff_file := TiffData {
  tf_array : ndarray;
  tf_series : list string;
  tf_is_rgb : bool;
  tf_pages : list kwargs
}.

(** One dictionary of the list that [file_reader] returns. *)
Record reader_dict := ReaderDict {
  rd_data : ndarray;
  rd_axes : list (Z * string);
  rd_original_parameters : kwargs;
  rd_mapped_parameters : kwargs
}.

(** [axes[:-1]] on a string *)
Fixpoint drop_last (s : string) : string :=
  match s with
  | EmptyString => EmptyString
  | String _ EmptyString => EmptyString
  | String c s' => String c (drop_last s')
  end.

(** [[axes_label_codes[axis] for axis in axes]]: the first code that is
    not in the dictionary is a [KeyError]. *)
Fixpoint names_of (axes : string) : result (list label) :=
  match axes with
  | EmptyString => Ok []
  | String axis rest =>
      match axes_label_codes axis with
      | None => Raise (KeyError (String axis EmptyString))
      | Some l =>
          match names_of rest with
          | Ok ls => Ok (l :: ls)
          | Raise e => Raise e
          end
      end
  end.

Section Plugin.

(** [rgb_tools.rgbx2regular_array] and [rgb_tools.regular_array2rgbx] of
  [hyperspy.misc], and the opening of a file by [TiffFile]. *)
Variable rgbx2regular_array : ndarray -> ndarray.
Variable regular_array2rgbx : ndarray -> ndarray.
Variable TiffFile : string -> kwargs -> result tiff_file.

(** [file_writer(filename, signal, **kwds)], tiff.py 60-82. The value is
  the call of [imsave] it ends in; a keyword of [kwds] that repeats an
  argument given by name or position is a [TypeError] of that call. *)
Definition file_writer (filename : string) (signal : signal) (kwds : kwargs)
  : result imsave_call :=
let data := data signal in
let '(data, photometric) :=
  if is_rgbx signal then (rgbx2regular_array data, "rgb")
  else (data, "minisblack") in
let kwds :=
  if negb (bool_decide (is_Some (kwds !! description))) then
    if truthy (PStr (title signal))
    then <["description" := PStr (title signal)]> kwds
    else kwds
  else kwds in
if bool_decide (Exists (fun k => is_Some (kwds !! k))
                       ["filename"; "data"; "software"; "photometric"]) then
  Raise (TypeError "imsave() got multiple values for keyword argument")
else Ok (Imsave filename data "hyperspy" photometric kwds).

(** [file_reader(filename, record_by='image', **kwds)], tiff.py 84-121 *)
Definition file_reader (filename : string) (record_by : string) (kwds : kwargs)
  : result (list reader_dict) :=
match TiffFile filename kwds with
| Raise e => Raise e
| Ok tiff =>
    let dc := tf_array tiff in
    match tf_series tiff with
    | [] => Raise (OtherError "IndexError" "list index out of range")
    | axes :: _ =>
        let '(dc, axes) :=
          if tf_is_rgb tiff then (regular_array2rgbx dc, drop_last axes)
          else (dc, axes) in
        match names_of axes with
        | Raise e => Raise e
        | Ok names =>
            let axes :=
              zip_with (fun size name => (size, unicode name)) (nd_shape dc) names in
            match tf_pages tiff with
            | [] => Raise (OtherError "IndexError" "list index out of range")
            | page :: _ =>
                let op := page in
                let mp : kwargs :=
                  {[ "original_filename" := PStr filename;
                     "record_by" := PStr "image";
                     "signal_type" := PStr "" ]} in
                Ok [ReaderDict dc axes op mp]
            end
        end
    end
end.

End Plugin.

End Tiff.

(** A grey image of two rows of three pixels, a signal that holds it, and
    a TIFF file of it whose first series has the given axes. *)
Definition grey_image : ndarray :=
  NdArray [2; 3] uint8 [PInt 0; PInt 1; PInt 2; PInt 3; PInt 4; PInt 5].

Definition grey_signal : Tiff.signal := Tiff.Signal grey_image false "NIO".

Definition grey_file (axes : string) (filename : string) (kwds : kwargs)
    : result Tiff.tiff_file :=
  Ok (Tiff.TiffData grey_image [axes] false [ {[ "image_width" := PInt 3 ]} ]).

Definition same_array (a : ndarray) : ndarray := a.

(** * Properties *)

(** ** The monad *)

Lemma bind_Ok {A B} (m : M A) (k : A -> M B) w w' b :
  (m ≫= k) w = (w', Ok b) ->
  exists a w1, m w = (w1, Ok a) /\ k a w1 = (w', Ok b).
Proof.
  unfold mbind, M_bind. destruct (m w) as [w1 [a|e]]; [eauto | discriminate].
Qed.

Lemma bind_run {A B} (m : M A) (k : A -> M B) w w1 a :
  m w = (w1, Ok a) -> (m ≫= k) w = k a w1.
Proof. unfold mbind, M_bind. intros ->. reflexivity. Qed.

Lemma bind_raise {A B} (m : M A) (k : A -> M B) w w1 e :
  m w = (w1, Raise e) -> (m ≫= k) w = (w1, Raise e).
Proof. unfold mbind, M_bind. intros ->. reflexivity. Qed.

Ltac run_monad :=
  unfold mbind, M_bind, mret, M_ret, modify, get_world, get_signal, raise in *;
  simpl in *.

(** ** Strings *)

Lemma str_replace_absent c d s :
  c <> d -> str_contains c (str_replace c d s) = false.
Proof.
  intros Hcd. induction s as [|a s IH]; simpl; [reflexivity|].
  rewrite IH, orb_false_r.
  destruct (Ascii.eqb_spec a c) as [->|Hac].
  - apply Ascii.eqb_neq. congruence.
  - apply Ascii.eqb_neq. exact Hac.
Qed.

Lemma str_replace_id c d s :
  str_contains c s = false -> str_replace c d s = s.
Proof.
  induction s as [|a s IH]; simpl; [reflexivity|].
  intros [Ha Hs]%orb_false_iff. rewrite Ha, IH by exact Hs. reflexivity.
Qed.

Lemma experiment_group_name_eq t :
  experiment_group_name t =
  match t with
  | Some s => if String.eqb s "" then "__unnamed__" else str_replace "/" "-" s
  | None => "__unnamed__"
  end.
Proof.
  unfold experiment_group_name.
  destruct t as [s|]; [|reflexivity].
  simpl. destruct (String.eqb s ""); simpl; [reflexivity|].
  destruct (str_contains "/" s) eqn:Hs; [reflexivity|].
  symmetry. apply str_replace_id. exact Hs.
Qed.

Lemma experiment_group_name_no_slash t :
  str_contains "/" (experiment_group_name t) = false.
Proof.
  rewrite experiment_group_name_eq.
  destruct t as [s|]; [|reflexivity].
  destruct (String.eqb s ""); [reflexivity|].
  apply str_replace_absent. discriminate.
Qed.

(** ** Paths *)

Lemma append_cons x (a b : string) : String x a +:+ b = String x (a +:+ b).
Proof. reflexivity. Qed.

Lemma append_length (a b : string) :
  String.length (a +:+ b) = (String.length a + String.length b)%nat.
Proof.
  induction a as [|c a IH]; [reflexivity|].
  rewrite append_cons. simpl. rewrite IH. reflexivity.
Qed.

Lemma append_slash_ne (d p : string) : d +:+ "/" +:+ p <> d.
Proof.
  intros H. apply (f_equal String.length) in H.
  rewrite !append_length in H. simpl in H. lia.
Qed.

Lemma fs_key_root d : fs_key d "" = d.
Proof. reflexivity. Qed.

Lemma fs_key_ne_root d p : p <> "" -> fs_key d p <> d.
Proof.
  intros Hp. unfold fs_key.
  destruct (String.eqb_spec p ""); [contradiction|]. apply append_slash_ne.
Qed.

(** ** The chunk planner *)

(** Every path through the planner ends in [None]. *)
Lemma _get_signal_chunks_None shape dt axes :
  _get_signal_chunks shape dt axes = None.
Proof.
  unfold _get_signal_chunks.
  destruct axes as [axes|]; [|reflexivity].
  destruct (_ <? _); reflexivity.
Qed.

(** C1. At the shape (10000, 10000, 100) of float64 with signal axis 2 the
    data are 8e10 bytes, well over the 1e8 threshold, the signal axis alone
    (800 bytes) fits any budget of that order, and the planner answers
    [None] where a chunk shape is due. *)
Theorem C1_large_array_gets_no_chunks :
  product [10000; 10000; 100] * itemsize float64 = 80000000000 /\
  total_size [10000; 10000; 100] float64 = 80000000000 /\
  threshold <= total_size [10000; 10000; 100] float64 /\
  _get_signal_chunks [10000; 10000; 100] float64 (Some [2]) = None.
Proof. repeat split; vm_compute; congruence. Qed.

(** C7. The planner defers to the store's default chunking, i.e. returns
    [None], whenever no signal axes are given, and also whenever
    product(shape) * itemsize is below the threshold with signal axes
    given. *)
Theorem C7_default_chunks_when_small_or_no_axes (shape : list Z) (dt : dtype) :
  _get_signal_chunks shape dt None = None /\
  (forall axes : list Z,
      product shape * itemsize dt < threshold ->
      _get_signal_chunks shape dt (Some axes) = None).
Proof.
  split; [reflexivity|].
  intros axes _. apply _get_signal_chunks_None.
Qed.

Lemma C7_default_chunks_witness :
  product [5; 5; 5] * itemsize float64 < threshold /\
  _get_signal_chunks [5; 5; 5] float64 None = None /\
  _get_signal_chunks [5; 5; 5] float64 (Some [2]) = None.
Proof.
  assert (H : product [5; 5; 5] * itemsize float64 < threshold)
    by (vm_compute; reflexivity).
  split; [exact H|].
  destruct (C7_default_chunks_when_small_or_no_axes [5; 5; 5] float64) as [H0 H1].
  split; [exact H0 | exact (H1 [2] H)].
Defined.

(** ** The store *)

Lemma rmdir_lookup d (fs : gmap string entry) k :
  rmdir d fs !! k = if decide (under d k) then None else fs !! k.
Proof.
  unfold rmdir. destruct (decide (under d k)) as [Hu|Hu].
  - apply map_lookup_filter_None. right. intros x _ Hn. apply Hn. exact Hu.
  - destruct (fs !! k) as [x|] eqn:Hk.
    + apply map_lookup_filter_Some. split; [exact Hk | exact Hu].
    + apply map_lookup_filter_None. left. exact Hk.
Qed.

Lemma rmdir_idem d (fs : gmap string entry) : rmdir d (rmdir d fs) = rmdir d fs.
Proof.
  apply map_eq. intros k. rewrite !rmdir_lookup.
  destruct (decide (under d k)); reflexivity.
Qed.

Lemma under_refl d : under d d.
Proof. left. reflexivity. Qed.

Lemma prefix_append (a b : string) : String.prefix a (a +:+ b) = true.
Proof.
  induction a as [|c a IH].
  - destruct b; reflexivity.
  - rewrite append_cons. simpl.
    destruct (Ascii.ascii_dec c c); [exact IH | contradiction].
Qed.

Lemma append_assoc (a b c : string) : (a +:+ b) +:+ c = a +:+ (b +:+ c).
Proof.
  induction a as [|x a IH]; [reflexivity|].
  rewrite !append_cons, IH. reflexivity.
Qed.

Lemma under_fs_key d p : under d (fs_key d p).
Proof.
  unfold fs_key. destruct (String.eqb p ""); [left; reflexivity|].
  right. rewrite <- append_assoc. apply prefix_append.
Qed.

(** ** Paths under a directory *)

Lemma prefix_iff (a b : string) :
  String.prefix a b = true <-> exists c, b = a +:+ c.
Proof.
  revert b. induction a as [|x a IH]; intros b.
  - split; [intros _; exists b; reflexivity | intros _; destruct b; reflexivity].
  - destruct b as [|y b].
    + split; [discriminate | intros [c Hc]; rewrite append_cons in Hc; discriminate].
    + simpl. destruct (Ascii.ascii_dec x y) as [->|Hxy].
      * rewrite IH. split; intros [c Hc]; exists c.
        -- rewrite append_cons, Hc. reflexivity.
        -- rewrite append_cons in Hc. congruence.
      * split; [discriminate|]. intros [c Hc]. rewrite append_cons in Hc. congruence.
Qed.

Lemma under_trans d p k : under d p -> under p k -> under d k.
Proof.
  intros [->|Hdp] Hpk; [exact Hpk|].
  right. apply prefix_iff in Hdp as [c ->].
  destruct Hpk as [->|Hpk].
  - apply prefix_iff. exists c. reflexivity.
  - apply prefix_iff in Hpk as [c' ->]. apply prefix_iff.
    exists (c +:+ "/" +:+ c'). rewrite !append_assoc. reflexivity.
Qed.


(** ** Frames *)

Lemma same_outside_refl d w : same_outside d w w.
Proof. repeat split. Qed.

Lemma same_outside_trans d w1 w2 w3 :
  same_outside d w1 w2 -> same_outside d w2 w3 -> same_outside d w1 w3.
Proof.
  intros (F1 & S1 & L1) (F2 & S2 & L2). repeat split; [|congruence..].
  intros k Hk. rewrite (F2 k Hk). apply F1, Hk.
Qed.

(** A computation that stays inside [d], followed by one that does so for
    every value the first can return, stays inside [d]. *)
Lemma bind_same_outside {A B} d (Q : A -> Prop) (m : M A) (k : A -> M B) :
  (forall w, same_outside d w (m w).1) ->
  (forall w w' a, m w = (w', Ok a) -> Q a) ->
  (forall a w, Q a -> same_outside d w (k a w).1) ->
  forall w, same_outside d w ((m ≫= k) w).1.
Proof.
  intros Hm HQ Hk w. unfold mbind, M_bind.
  pose proof (Hm w) as H1. pose proof (HQ w) as H2.
  destruct (m w) as [w1 [a|e]]; simpl in *; [|exact H1].
  eapply same_outside_trans; [exact H1|]. apply Hk. eapply H2. reflexivity.
Qed.

Lemma set_fs_insert_same_outside d k e w :
  under d k -> same_outside d w (set_fs (fun fs => <[k := e]> fs) w).
Proof.
  intros Hk. repeat split. intros k' Hk'. simpl.
  apply lookup_insert_ne. intros ->. contradiction.
Qed.


(** ** Creating groups *)

Lemma under_fs_key_store store path k : under (fs_key store path) k -> under store k.
Proof. apply under_trans, under_fs_key. Qed.

Lemma init_group_metadata_same_outside store path ow w :
  same_outside store w (init_group_metadata store path ow w).1.
Proof.
  unfold init_group_metadata. run_monad. destruct ow; simpl.
  - repeat split. intros k Hk. simpl.
    rewrite lookup_insert_ne by (intros <-; apply Hk, under_fs_key).
    rewrite rmdir_lookup.
    destruct (decide (under (fs_key store path) k)) as [Hu|]; [|reflexivity].
    exfalso. apply Hk. eapply under_fs_key_store, Hu.
  - destruct (w_fs w !! fs_key store path) as [[?|? ?]|]; simpl;
      try apply same_outside_refl.
    apply set_fs_insert_same_outside, under_fs_key.
Qed.

Lemma require_groups_same_outside store ow parents w :
  same_outside store w (require_groups store ow parents w).1.
Proof.
  revert w. induction parents as [|p rest IH]; intros w; [apply same_outside_refl|].
  cbn [require_groups]. unfold mbind, M_bind, get_world.
  assert (Hstep : forall m : M unit,
    same_outside store w (m w).1 ->
    same_outside store w
      (match m w with
       | (w', Ok _) => require_groups store ow rest w'
       | (w', Raise e) => (w', Raise e)
       end).1).
  { intros m Hm. destruct (m w) as [w1 [[]|?]]; simpl in *; [|exact Hm].
    eapply same_outside_trans; [exact Hm | apply IH]. }
  destruct (w_fs w !! fs_key store p) as [[?|? ?]|].
  - apply (Hstep (mret tt)). apply same_outside_refl.
  - apply (Hstep (init_group_metadata store p ow)), init_group_metadata_same_outside.
  - apply (Hstep (init_group_metadata store p false)), init_group_metadata_same_outside.
Qed.

(** Without [overwrite] nothing that is there is replaced. *)
Lemma init_group_metadata_keeps store path w k e :
  w_fs w !! k = Some e ->
  w_fs (init_group_metadata store path false w).1 !! k = Some e.
Proof.
  intros Hk. unfold init_group_metadata. run_monad.
  destruct (w_fs w !! fs_key store path) as [[?|? ?]|] eqn:Hp; simpl; try exact Hk.
  rewrite lookup_insert_ne; [exact Hk|]. intros <-. congruence.
Qed.

Lemma require_groups_keeps store parents w k e :
  w_fs w !! k = Some e ->
  w_fs (require_groups store false parents w).1 !! k = Some e.
Proof.
  revert w. induction parents as [|p rest IH]; intros w Hk; [exact Hk|].
  cbn [require_groups]. unfold mbind, M_bind, get_world.
  destruct (w_fs w !! fs_key store p) as [[?|? ?]|] eqn:Hp.
  - apply IH, Hk.
  - pose proof (init_group_metadata_keeps store p w k e Hk) as H1.
    destruct (init_group_metadata store p false w) as [w1 [[]|?]]; simpl in *;
      [apply IH, H1 | exact H1].
  - pose proof (init_group_metadata_keeps store p w k e Hk) as H1.
    destruct (init_group_metadata store p false w) as [w1 [[]|?]]; simpl in *;
      [apply IH, H1 | exact H1].
Qed.

Lemma init_group_metadata_Ok store path w w' :
  init_group_metadata store path false w = (w', Ok tt) ->
  w_fs w !! fs_key store path = None /\
  w' = set_fs (fun fs => <[fs_key store path := EGroup ∅]> fs) w.
Proof.
  unfold init_group_metadata. run_monad.
  destruct (w_fs w !! fs_key store path) as [[?|? ?]|]; try discriminate.
  intros [= <-]. split; reflexivity.
Qed.

Lemma init_group_metadata_taken store path w e0 :
  w_fs w !! fs_key store path = Some e0 ->
  init_group_metadata store path false w =
  (w, Raise (match e0 with
             | EGroup _ => ContainsGroupError path
             | EArray _ _ => ContainsArrayError path
             end)).
Proof.
  intros H. unfold init_group_metadata. run_monad. rewrite H.
  destruct e0; reflexivity.
Qed.

(** Where all the parents are groups nothing is done for them. *)
Lemma require_groups_in_place store ow parents w :
  Forall (fun p => exists a, w_fs w !! fs_key store p = Some (EGroup a)) parents ->
  require_groups store ow parents w = (w, Ok tt).
Proof.
  induction 1 as [|p rest [a Hp] _ IH]; [reflexivity|].
  cbn [require_groups]. unfold mbind, M_bind, get_world. rewrite Hp. exact IH.
Qed.

Lemma create_group_same_outside n name w :
  same_outside (h_store (node_handle n)) w (create_group n name w).1.
Proof.
  unfold create_group. destruct n as [g|a]; [|apply same_outside_refl].
  destruct (item_path g name) as [path|e]; [|apply same_outside_refl].
  simpl. revert w.
  apply (bind_same_outside _ (fun _ => True)); [| trivial |].
  { intros w. apply require_groups_same_outside. }
  intros [] w _. revert w.
  apply (bind_same_outside _ (fun _ => True)); [| trivial |].
  { intros w. apply init_group_metadata_same_outside. }
  intros [] w _. apply same_outside_refl.
Qed.

Lemma create_group_keeps n name w k e :
  w_fs w !! k = Some e -> w_fs (create_group n name w).1 !! k = Some e.
Proof.
  intros Hk. unfold create_group. destruct n as [g|a]; [|exact Hk].
  destruct (item_path g name) as [path|e']; [|exact Hk].
  unfold require_parent_group, mbind, M_bind.
  pose proof (require_groups_keeps (h_store g) (parent_paths path) w k e Hk) as H1.
  destruct (require_groups _ _ _ w) as [w1 [[]|?]]; simpl in *; [|exact H1].
  pose proof (init_group_metadata_keeps (h_store g) path w1 k e H1) as H2.
  destruct (init_group_metadata _ _ _ w1) as [w2 [[]|?]]; simpl in *; exact H2.
Qed.

Lemma create_group_Ok n name w w' r :
  create_group n name w = (w', Ok r) ->
  exists g path,
    n = GroupNode g /\ item_path g name = Ok path /\
    r = GroupNode (Handle (h_store g) path) /\
    w_fs w' !! fs_key (h_store g) path = Some (EGroup ∅).
Proof.
  unfold create_group. destruct n as [g|a]; [|discriminate].
  destruct (item_path g name) as [path|e] eqn:Hp; [|discriminate].
  intros H.
  apply bind_Ok in H as ([] & w1 & _ & H).
  apply bind_Ok in H as ([] & w2 & Hinit & H).
  injection H as <- <-.
  apply init_group_metadata_Ok in Hinit as [_ ->].
  exists g, path. split; [reflexivity|]. split; [exact Hp|].
  split; [reflexivity|]. simpl. apply lookup_insert_eq.
Qed.

Lemma create_group_store n name w w' r :
  create_group n name w = (w', Ok r) ->
  h_store (node_handle r) = h_store (node_handle n).
Proof.
  intros H. apply create_group_Ok in H as (g & path & -> & _ & -> & _). reflexivity.
Qed.

(** A group whose parents are in place and whose path is taken. *)
Lemma create_group_taken g name path w e0 :
  item_path g name = Ok path ->
  Forall (fun p => exists a, w_fs w !! fs_key (h_store g) p = Some (EGroup a))
         (parent_paths path) ->
  w_fs w !! fs_key (h_store g) path = Some e0 ->
  create_group (GroupNode g) name w =
  (w, Raise (match e0 with
             | EGroup _ => ContainsGroupError path
             | EArray _ _ => ContainsArrayError path
             end)).
Proof.
  intros Hp Hpar H. unfold create_group. rewrite Hp.
  unfold require_parent_group.
  rewrite (bind_run _ _ _ _ _ (require_groups_in_place _ _ _ _ Hpar)).
  rewrite (bind_raise _ _ _ _ _ (init_group_metadata_taken _ _ _ _ H)).
  reflexivity.
Qed.

(** ** Opening the experiment group *)

Lemma write_to_storage_with_compressor kwds :
  write_to_storage (with_compressor kwds) = write_to_storage kwds.
Proof.
  unfold with_compressor, write_to_storage.
  destruct (bool_decide (is_Some (kwds !! "compressor"))); [reflexivity|].
  rewrite lookup_insert_ne by discriminate. reflexivity.
Qed.

(** The first step of the set-up returns the array that is at the path,
    or leaves a root group with the attributes of [root_attrs_before]. *)
Lemma root_step_Ok filename kwds w w2 f :
  (if write_to_storage kwds then zarr_open filename
   else zarr_group_overwrite filename) w = (w2, Ok f) ->
  w_signal w2 = w_signal w /\ w_log w2 = w_log w /\
  (f = ArrayNode (Handle filename "") \/
   f = GroupNode (Handle filename "") /\
   w_fs w2 !! filename = Some (EGroup (root_attrs_before filename kwds w))).
Proof.
  unfold root_attrs_before. destruct (write_to_storage kwds).
  - unfold zarr_open. run_monad.
    destruct (w_fs w !! filename) as [[a0|a0 z]|] eqn:Hk; intros [= <- <-];
      (split; [reflexivity|]); (split; [reflexivity|]); [right|left|right];
      try reflexivity; (split; [reflexivity|]); simpl.
    + exact Hk.
    + apply lookup_insert_eq.
  - unfold zarr_group_overwrite. run_monad. intros [= <- <-].
    split; [reflexivity|]. split; [reflexivity|]. right.
    split; [reflexivity|]. simpl. apply lookup_insert_eq.
Qed.

Section Writer.

Variable version : string.
Variable HierarchicalWriter_init : node -> node -> kwargs -> M unit.
Variable HierarchicalWriter_write : ZspyWriter -> M unit.

(** What a successful set-up leaves behind. *)
Lemma open_experiment_group_Ok filename kwds w w1 f expg kw :
  open_experiment_group version filename kwds w = (w1, Ok (f, expg, kw)) ->
  f = GroupNode (Handle filename "") /\
  (exists path,
     item_path (Handle filename "Experiments")
       (experiment_group_name (title (w_signal w))) = Ok path /\
     expg = GroupNode (Handle filename path) /\
     w_fs w1 !! fs_key filename path = Some (EGroup ∅)) /\
  kw = with_compressor kwds /\
  w_signal w1 = w_signal w /\
  w_log w1 = w_log w /\
  w_fs w1 !! filename =
    Some (EGroup (<["file_format_version" := PStr version]>
                    (<["file_format" := PStr "ZSpy"]>
                       (root_attrs_before filename kwds w)))).
Proof.
  unfold open_experiment_group. fold (with_compressor kwds).
  fold (write_to_storage (with_compressor kwds)).
  rewrite write_to_storage_with_compressor.
  intros H.
  apply bind_Ok in H as (f0 & w2 & Hroot & H).
  apply bind_Ok in H as ([] & w3 & Ha1 & H).
  apply bind_Ok in H as ([] & w4 & Ha2 & H).
  apply bind_Ok in H as (exps & w5 & Hexps & H).
  apply bind_Ok in H as (s & w6 & Hs & H).
  apply bind_Ok in H as (expg0 & w7 & Hexpg & H).
  injection H as <- <- <- <-.
  injection Hs as <- <-.
  injection Ha1 as <-. injection Ha2 as <-.
  apply root_step_Ok in Hroot as (Hsig & Hlog & Hf).
  pose proof (create_group_same_outside f0 "Experiments"
    (set_fs (fun fs => alter (entry_set_attr "file_format_version" (PStr version))
               (handle_key (node_handle f0)) fs)
       (set_fs (fun fs => alter (entry_set_attr "file_format" (PStr "ZSpy"))
                  (handle_key (node_handle f0)) fs) w2))) as (_ & Hs5 & Hl5).
  pose proof (create_group_same_outside exps
    (experiment_group_name (title (w_signal w5))) w5) as (_ & Hs7 & Hl7).
  rewrite Hexps in Hs5, Hl5. simpl in Hs5, Hl5.
  rewrite Hexpg in Hs7, Hl7. simpl in Hs7, Hl7.
  pose proof (create_group_keeps f0 "Experiments"
    (set_fs (fun fs => alter (entry_set_attr "file_format_version" (PStr version))
               (handle_key (node_handle f0)) fs)
       (set_fs (fun fs => alter (entry_set_attr "file_format" (PStr "ZSpy"))
                  (handle_key (node_handle f0)) fs) w2)) filename) as Hk5.
  pose proof (create_group_keeps exps
    (experiment_group_name (title (w_signal w5))) w5 filename) as Hk7.
  rewrite Hexps in Hk5. rewrite Hexpg in Hk7. simpl in Hk5, Hk7.
  apply create_group_Ok in Hexps as (g & p & -> & Hp & -> & _).
  destruct Hf as [Hf|[Hf Hroot]]; [discriminate|].
  injection Hf as ->. cbv in Hp. injection Hp as <-.
  apply create_group_Ok in Hexpg as (g' & path & [= <-] & Hpath & -> & Hkey).
  simpl in Hkey, Hpath.
  split; [reflexivity|]. split.
  { exists path. rewrite <- Hsig, <- Hs5. split; [exact Hpath|].
    split; [reflexivity | exact Hkey]. }
  split; [reflexivity|]. split; [congruence|]. split; [congruence|].
  apply Hk7, Hk5.
  change (handle_key (node_handle (GroupNode (Handle filename "")))) with filename.
  rewrite !lookup_alter_eq, Hroot. reflexivity.
Qed.


(** ** The transient [record_by] marker *)

Lemma file_writer_run filename kwds w w1 f expg kw :
  open_experiment_group version filename kwds w = (w1, Ok (f, expg, kw)) ->
  file_writer version HierarchicalWriter_init HierarchicalWriter_write filename kwds w =
  write_with_record_by HierarchicalWriter_init HierarchicalWriter_write f expg kw w1.
Proof. intros H. unfold file_writer. rewrite (bind_run _ _ _ _ _ H). reflexivity. Qed.

(** The guarded write, step by step: the writer runs on the world with
    the marker, and the clean-up deletes the marker from what the writer
    leaves. *)
Lemma write_with_record_by_run f expg kw w :
  write_with_record_by HierarchicalWriter_init HierarchicalWriter_write f expg kw w =
  let out := ZspyWriter_run HierarchicalWriter_init HierarchicalWriter_write
               f expg kw (with_record_by w) in
  match Signal_md (w_signal out.1) !! "record_by" with
  | Some _ => (without_record_by out.1, out.2)
  | None => (out.1, Raise (AttributeError "record_by"))
  end.
Proof.
  unfold write_with_record_by.
  assert (Hset :
    (if signal_dimension (w_signal w) =? 1
     then smd_setattr "record_by" (PStr "spectrum")
     else if signal_dimension (w_signal w) =? 2
          then smd_setattr "record_by" (PStr "image")
          else smd_setattr "record_by" (PStr "")) w = (with_record_by w, Ok tt)).
  { unfold with_record_by, record_by_of.
    destruct (signal_dimension (w_signal w) =? 1); [reflexivity|].
    destruct (signal_dimension (w_signal w) =? 2); reflexivity. }
  rewrite (bind_run get_signal _ w w (w_signal w)) by reflexivity.
  rewrite (bind_run _ _ _ _ _ Hset).
  unfold try_finally, try_except, smd_delattr.
  destruct (ZspyWriter_run _ _ f expg kw (with_record_by w)) as [w2 [[]|e]]; simpl;
    run_monad;
    destruct (Signal_md (w_signal w2) !! "record_by"); reflexivity.
Qed.

Lemma with_record_by_lookup w :
  Signal_md (w_signal (with_record_by w)) !! "record_by" =
  Some (PStr (record_by_of (signal_dimension (w_signal w)))).
Proof. unfold with_record_by. simpl. apply lookup_insert_eq. Qed.

Lemma without_record_by_lookup w :
  Signal_md (w_signal (without_record_by w)) !! "record_by" = None.
Proof. unfold without_record_by. simpl. apply lookup_delete_eq. Qed.

(** C2. Once the experiment group is open, [file_writer] sets
    [metadata.Signal.record_by] ("spectrum" for signal dimension 1,
    "image" for 2, "" otherwise) before the writer is made and run, and
    whatever the writer does, returning or raising, the signal is left
    without [record_by] when [file_writer] ends; the outcome of the writer,
    an exception included, is the outcome of [file_writer], reached after
    the marker was deleted from the world the writer left (a writer that
    itself removes the marker makes the clean-up fail instead). *)
Theorem C2_record_by_is_transient filename kwds w w1 f expg kw :
  open_experiment_group version filename kwds w = (w1, Ok (f, expg, kw)) ->
  let run := ZspyWriter_run HierarchicalWriter_init HierarchicalWriter_write
               f expg kw (with_record_by w1) in
  let out := file_writer version HierarchicalWriter_init HierarchicalWriter_write
               filename kwds w in
  Signal_md (w_signal (with_record_by w1)) !! "record_by" =
    Some (PStr (if signal_dimension (w_signal w) =? 1 then "spectrum"
                else if signal_dimension (w_signal w) =? 2 then "image"
                else "")) /\
  Signal_md (w_signal out.1) !! "record_by" = None /\
  (is_Some (Signal_md (w_signal run.1) !! "record_by") ->
   out = (without_record_by run.1, run.2)).
Proof.
  intros Hopen run out.
  pose proof (open_experiment_group_Ok _ _ _ _ _ _ _ Hopen)
    as (_ & _ & _ & Hsig & _).
  subst out. rewrite (file_writer_run _ _ _ _ _ _ _ Hopen).
  rewrite write_with_record_by_run. fold run.
  split; [|split].
  - rewrite with_record_by_lookup, Hsig. reflexivity.
  - cbv zeta.
    destruct (Signal_md (w_signal run.1) !! "record_by") eqn:Hr.
    + apply without_record_by_lookup.
    + exact Hr.
  - intros [v Hv]. cbv zeta. rewrite Hv. reflexivity.
Qed.

(** ** The root attributes *)

Lemma without_record_by_fs w : w_fs (without_record_by w) = w_fs w.
Proof. reflexivity. Qed.

Lemma with_record_by_fs w : w_fs (with_record_by w) = w_fs w.
Proof. reflexivity. Qed.

(** C5 (amended). After a call of [file_writer] that completes, with a
    writer that left the root node as it found it, the root group carries
    [file_format] = "ZSpy" and [file_format_version] = the writer's
    version; every other attribute it has is one that the root opened by
    [write_to_storage] had before the call, so a root made afresh has
    these two and no other. *)
Theorem C5_root_format_attributes filename kwds w w1 f expg kw w' :
  open_experiment_group version filename kwds w = (w1, Ok (f, expg, kw)) ->
  file_writer version HierarchicalWriter_init HierarchicalWriter_write
    filename kwds w = (w', Ok tt) ->
  w_fs (ZspyWriter_run HierarchicalWriter_init HierarchicalWriter_write
          f expg kw (with_record_by w1)).1 !! filename = w_fs w1 !! filename ->
  exists attrs,
    w_fs w' !! filename = Some (EGroup attrs) /\
    attrs !! "file_format" = Some (PStr format_name) /\
    attrs !! "file_format_version" = Some (PStr version) /\
    (forall k, k <> "file_format" -> k <> "file_format_version" ->
       attrs !! k = root_attrs_before filename kwds w !! k) /\
    (write_to_storage kwds = false ->
     attrs = {[ "file_format" := PStr format_name;
                "file_format_version" := PStr version ]}).
Proof.
  intros Hopen Hrun Hframe.
  pose proof (open_experiment_group_Ok _ _ _ _ _ _ _ Hopen)
    as (_ & _ & _ & _ & _ & Hroot).
  rewrite (file_writer_run _ _ _ _ _ _ _ Hopen) in Hrun.
  rewrite write_with_record_by_run in Hrun. simpl in Hrun.
  destruct (ZspyWriter_run _ _ f expg kw (with_record_by w1)) as [w2 r].
  simpl in *.
  assert (Hfs : w_fs w' = w_fs w2).
  { destruct (Signal_md (w_signal w2) !! "record_by").
    - injection Hrun as <- _. reflexivity.
    - discriminate. }
  eexists. rewrite Hfs, Hframe.
  split; [exact Hroot|].
  split; [rewrite lookup_insert_ne by discriminate; apply lookup_insert_eq|].
  split; [apply lookup_insert_eq|].
  split.
  - intros k Hk1 Hk2. rewrite !lookup_insert_ne by congruence. reflexivity.
  - intros Hw. unfold root_attrs_before. rewrite Hw. unfold format_name.
    apply map_eq. intros k.
    destruct (decide (k = "file_format")) as [->|Hk1];
      [reflexivity|].
    destruct (decide (k = "file_format_version")) as [->|Hk2];
      [reflexivity|].
    rewrite !lookup_insert_ne, lookup_singleton_ne, lookup_empty by congruence.
    reflexivity.
Qed.

(** ** Saving over an earlier save *)

Lemma bind_same_start {A B} (m : M A) (k : A -> M B) w w' :
  m w = m w' -> (m ≫= k) w = (m ≫= k) w'.
Proof. unfold mbind, M_bind. intros ->. reflexivity. Qed.

(** C4 (amended). A call of [file_writer] without a true
    [write_to_storage] keyword makes the root group with
    [overwrite=True]: whatever the target path held, the call behaves as
    on the same file system with everything under the path removed, so
    nothing of an earlier save is left or merged. *)
Theorem C4_fresh_root_unless_write_to_storage filename kwds w :
  write_to_storage kwds = false ->
  file_writer version HierarchicalWriter_init HierarchicalWriter_write
    filename kwds w =
  file_writer version HierarchicalWriter_init HierarchicalWriter_write
    filename kwds (set_fs (rmdir filename) w) /\
  (forall k, under filename k -> w_fs (set_fs (rmdir filename) w) !! k = None).
Proof.
  intros Hw. split.
  - unfold file_writer, open_experiment_group.
    fold (with_compressor kwds). fold (write_to_storage (with_compressor kwds)).
    rewrite write_to_storage_with_compressor, Hw.
    apply bind_same_start, bind_same_start.
    unfold zarr_group_overwrite. run_monad.
    unfold set_fs. simpl. rewrite rmdir_idem. reflexivity.
  - intros k Hk. simpl. rewrite rmdir_lookup.
    destruct (decide (under filename k)); [reflexivity | contradiction].
Qed.

End Writer.

(** ** The plugin on the sample inputs *)

Lemma image_setup_Ok :
  open_experiment_group "3.1" "/tmp/a.zspy" ∅ (empty_world image) =
  (image_setup.1,
   Ok (root_node, GroupNode (Handle "/tmp/a.zspy" "Experiments/__unnamed__"),
       {[ "compressor" := Blosc_zstd_1 ]})).
Proof. vm_compute. reflexivity. Qed.

Lemma spectrum_setup_Ok :
  open_experiment_group "3.1" "/tmp/a.zspy" ∅ (empty_world spectrum) =
  (spectrum_setup.1,
   Ok (root_node, GroupNode (Handle "/tmp/a.zspy" "Experiments/EELS-OK"),
       {[ "compressor" := Blosc_zstd_1 ]})).
Proof. vm_compute. reflexivity. Qed.

(** A writer that fails on an image: the error reaches the caller and the
    signal is without [record_by]. *)
Lemma C2_record_by_witness :
  (file_writer "3.1" sample_init failing_write "/tmp/a.zspy" ∅ (empty_world image)).2
    = Raise (OtherError "OSError" "No space left on device") /\
  Signal_md (w_signal
    (file_writer "3.1" sample_init failing_write "/tmp/a.zspy" ∅ (empty_world image)).1)
    !! "record_by" = None.
Proof.
  destruct (C2_record_by_is_transient "3.1" sample_init failing_write
              "/tmp/a.zspy" ∅ (empty_world image) image_setup.1 root_node
              (GroupNode (Handle "/tmp/a.zspy" "Experiments/__unnamed__"))
              {[ "compressor" := Blosc_zstd_1 ]} image_setup_Ok)
    as (_ & Habsent & Hout).
  split; [|exact Habsent].
  rewrite Hout.
  - vm_compute. reflexivity.
  - eexists. vm_compute. reflexivity.
Defined.

Lemma C5_root_format_witness :
  exists attrs,
    w_fs first_save !! "/tmp/a.zspy" = Some (EGroup attrs) /\
    attrs !! "file_format" = Some (PStr "ZSpy") /\
    attrs !! "file_format_version" = Some (PStr "3.1") /\
    attrs = {[ "file_format" := PStr "ZSpy"; "file_format_version" := PStr "3.1" ]}.
Proof.
  destruct (C5_root_format_attributes "3.1" sample_init sample_write
              "/tmp/a.zspy" ∅ (empty_world spectrum) spectrum_setup.1 root_node
              (GroupNode (Handle "/tmp/a.zspy" "Experiments/EELS-OK"))
              {[ "compressor" := Blosc_zstd_1 ]} first_save
              spectrum_setup_Ok)
    as (attrs & H1 & H2 & H3 & _ & H4).
  - vm_compute. reflexivity.
  - vm_compute. reflexivity.
  - exists attrs. repeat split; try assumption. apply H4. reflexivity.
Defined.

(** A save with [write_to_storage] into a root group that has an attribute
    "owner" completes, and the root then has three attributes: the two of
    the format and "owner". *)
Lemma C5_write_to_storage_keeps_attributes :
  let out := sample_file_writer "/tmp/o.zspy" {[ "write_to_storage" := PBool true ]}
               owned_world in
  out.2 = Ok tt /\
  w_fs out.1 !! "/tmp/o.zspy" =
    Some (EGroup {[ "owner" := PStr "me"; "file_format" := PStr "ZSpy";
                    "file_format_version" := PStr "3.1" ]}) /\
  ({[ "owner" := PStr "me"; "file_format" := PStr "ZSpy";
      "file_format_version" := PStr "3.1" ]} : kwargs) <>
  {[ "file_format" := PStr "ZSpy"; "file_format_version" := PStr "3.1" ]}.
Proof.
  split; [vm_compute; reflexivity|]. split; [vm_compute; reflexivity|].
  intros H. apply (f_equal (fun m : kwargs => m !! "owner")) in H.
  vm_compute in H. discriminate.
Qed.

(** C10. The title "a\b": the name of the experiment group is the title
    itself, for it holds no "/" to replace; the set-up completes, and
    since zarr reads a backslash in a name as a slash the experiment group
    is the group "b" inside a group "a" under "Experiments", at the path
    "Experiments/a/b", where the name was to hold no "/". *)
Theorem C10_backslash_title_nests_groups :
  let setup := open_experiment_group "3.1" "/tmp/a.zspy" ∅
                 (empty_world backslash_signal) in
  experiment_group_name (title backslash_signal) = "a\b" /\
  str_contains "/" (experiment_group_name (title backslash_signal)) = false /\
  setup.2 = Ok (root_node, GroupNode (Handle "/tmp/a.zspy" "Experiments/a/b"),
                {[ "compressor" := Blosc_zstd_1 ]}) /\
  w_fs setup.1 !! "/tmp/a.zspy/Experiments/a" = Some (EGroup ∅) /\
  w_fs setup.1 !! "/tmp/a.zspy/Experiments/a/b" = Some (EGroup ∅) /\
  w_fs setup.1 !! "/tmp/a.zspy/Experiments/a\b" = None.
Proof. repeat split; vm_compute; reflexivity. Qed.

(** Saving [image] over the first save, without [write_to_storage]. *)
Lemma C4_fresh_root_witness :
  write_to_storage ∅ = false /\
  sample_file_writer "/tmp/a.zspy" ∅ (World (w_fs first_save) image []) =
  sample_file_writer "/tmp/a.zspy" ∅
    (set_fs (rmdir "/tmp/a.zspy") (World (w_fs first_save) image [])).
Proof.
  split; [reflexivity|].
  apply (C4_fresh_root_unless_write_to_storage "3.1" sample_init sample_write
           "/tmp/a.zspy" ∅ (World (w_fs first_save) image [])).
  reflexivity.
Defined.

(** With [write_to_storage] the root is opened, not made afresh: the group
    of the first save, which a single save of the second signal does not
    produce, is still there after the second save, which itself ends in
    [ContainsGroupError] at "Experiments". *)
Lemma C4_write_to_storage_keeps_old_tree :
  w_fs first_save !! "/tmp/a.zspy/Experiments/EELS-OK" = Some (EGroup ∅) /\
  w_fs single_save.1 !! "/tmp/a.zspy/Experiments/EELS-OK" = None /\
  w_fs second_save.1 !! "/tmp/a.zspy/Experiments/EELS-OK" = Some (EGroup ∅) /\
  second_save.2 = Raise (ContainsGroupError "Experiments") /\
  single_save.2 = Ok tt /\
  w_fs second_save.1 <> w_fs single_save.1.
Proof.
  repeat split; try (vm_compute; reflexivity).
  intros H.
  apply (f_equal (fun fs => fs !! "/tmp/a.zspy/Experiments/EELS-OK")) in H.
  vm_compute in H. discriminate.
Qed.

(** ** Reading a file of a newer version *)

Section Reader.

Variable version : string.
Variable LooseVersion : Type.
Variable payload : Type.
Variable HierarchicalReader_init : node -> M LooseVersion.
Variable version_gt : LooseVersion -> string -> bool.
Variable HierarchicalReader_read : ZspyReader LooseVersion -> bool -> M payload.

Let reader_of (f : node) (v : LooseVersion) : ZspyReader LooseVersion :=
  {| zr_file := f; zr_version := v; zr_Dataset := "Array"; zr_Group := "Group" |}.

(** Up to the version test: the file is opened and the reader made. *)
Lemma file_reader_run filename lazy kwds w w1 f w2 v :
  zarr_open_mode filename (default (PStr "r") (kwds !! "mode")) w = (w1, Ok f) ->
  HierarchicalReader_init f w1 = (w2, Ok v) ->
  file_reader version LooseVersion payload HierarchicalReader_init version_gt
    HierarchicalReader_read filename lazy kwds w =
  HierarchicalReader_read (reader_of f v) lazy
    (if version_gt v version then log_event (Warned newer_version_warning) w2
     else w2).
Proof.
  intros Hopen Hinit. unfold file_reader.
  rewrite (bind_run _ _ _ _ _ Hopen).
  unfold ZspyReader_init.
  assert (Hrd : (HierarchicalReader_init f ≫= fun v0 =>
                   mret (reader_of f v0)) w1 = (w2, Ok (reader_of f v))).
  { rewrite (bind_run _ _ _ _ _ Hinit). reflexivity. }
  rewrite (bind_run _ _ _ _ _ Hrd). simpl.
  destruct (version_gt v version); reflexivity.
Qed.

(** C3. When the stored version is greater than the supported one,
    [file_reader] warns and goes on to [reader.read(lazy)]: its result,
    payload or exception, is that of the read, run in the world to which
    only the warning was added. *)
Theorem C3_newer_version_warns_and_reads filename lazy kwds w w1 f w2 v :
  zarr_open_mode filename (default (PStr "r") (kwds !! "mode")) w = (w1, Ok f) ->
  HierarchicalReader_init f w1 = (w2, Ok v) ->
  version_gt v version = true ->
  file_reader version LooseVersion payload HierarchicalReader_init version_gt
    HierarchicalReader_read filename lazy kwds w =
  HierarchicalReader_read
    {| zr_file := f; zr_version := v; zr_Dataset := "Array"; zr_Group := "Group" |}
    lazy (log_event (Warned newer_version_warning) w2) /\
  w_log (log_event (Warned newer_version_warning) w2) =
    w_log w2 ++ [Warned newer_version_warning] /\
  w_fs (log_event (Warned newer_version_warning) w2) = w_fs w2.
Proof.
  intros Hopen Hinit Hgt.
  rewrite (file_reader_run _ _ _ _ _ _ _ _ Hopen Hinit), Hgt.
  repeat split.
Qed.

(** X13. When the stored version is not newer than the supported one,
    [file_reader] adds no warning: its result is that of
    [reader.read(lazy)] in the world the reader's construction left. *)
Lemma file_reader_supported_version filename lazy kwds w w1 f w2 v :
  zarr_open_mode filename (default (PStr "r") (kwds !! "mode")) w = (w1, Ok f) ->
  HierarchicalReader_init f w1 = (w2, Ok v) ->
  version_gt v version = false ->
  file_reader version LooseVersion payload HierarchicalReader_init version_gt
    HierarchicalReader_read filename lazy kwds w =
  HierarchicalReader_read (reader_of f v) lazy w2.
Proof.
  intros Hopen Hinit Hgt.
  rewrite (file_reader_run _ _ _ _ _ _ _ _ Hopen Hinit), Hgt. reflexivity.
Qed.

End Reader.

(** A reader that supports "3.0" on the file of version "3.1" of the first
    save: the warning is logged and the payload returned. *)
Lemma C3_newer_version_witness :
  (file_reader "3.0" string (list string) sample_reader_init sample_version_gt
     sample_read "/tmp/a.zspy" false ∅ first_save).2 =
  Ok ["/tmp/a.zspy/Experiments/EELS-OK/metadata";
      "/tmp/a.zspy/Experiments/EELS-OK";
      "/tmp/a.zspy/Experiments"; "/tmp/a.zspy"] /\
  w_log (file_reader "3.0" string (list string) sample_reader_init sample_version_gt
     sample_read "/tmp/a.zspy" false ∅ first_save).1 = [Warned newer_version_warning].
Proof.
  destruct (C3_newer_version_warns_and_reads "3.0" string (list string)
              sample_reader_init sample_version_gt sample_read
              "/tmp/a.zspy" false ∅ first_save first_save root_node first_save "3.1")
    as (Hrun & _ & _).
  - vm_compute. reflexivity.
  - vm_compute. reflexivity.
  - vm_compute. reflexivity.
  - rewrite Hrun. split; vm_compute; reflexivity.
Defined.

(** ** Chunkings *)

Lemma replicate_regular (n : nat) (c : Z) :
  forallb (fun x => x =? c) (List.removelast (replicate n c)) = true /\
  List.last (replicate n c) c = c.
Proof.
  induction n as [|n [IH1 IH2]]; [split; reflexivity|].
  destruct n as [|n]; [split; reflexivity|].
  change (replicate (S (S n)) c) with (c :: replicate (S n) c).
  split.
  - change (List.removelast (c :: replicate (S n) c))
      with (c :: List.removelast (replicate (S n) c)).
    simpl forallb. rewrite Z.eqb_refl. exact IH1.
  - change (List.last (c :: replicate (S n) c) c)
      with (List.last (replicate (S n) c) c).
    exact IH2.
Qed.

Lemma forallb_replicate (n : nat) (c : Z) :
  forallb (fun x => x =? c) (replicate n c) = true.
Proof. induction n as [|n IH]; simpl; [reflexivity|]. rewrite Z.eqb_refl. exact IH. Qed.

(** The blocks that a rechunk makes along an axis are regular. *)
Lemma blocks_regular n c : 0 < c -> regular_axis (blocks n c) = true.
Proof.
  intros Hc. unfold blocks.
  destruct (n =? 0); [reflexivity|].
  destruct (Z.to_nat (n / c)) as [|k].
  - simpl. destruct (n mod c =? 0); [reflexivity|].
    simpl. apply Z.leb_refl.
  - change (replicate (S k) c) with (c :: replicate k c).
    destruct (n mod c =? 0) eqn:Hr.
    + rewrite app_nil_r. unfold regular_axis.
      change (c :: replicate k c) with (replicate (S k) c).
      destruct (replicate_regular (S k) c) as [H1 H2].
      rewrite H1, H2, Z.leb_refl. reflexivity.
    + change ((c :: replicate k c) ++ [n mod c])
        with (c :: (replicate k c ++ [n mod c])).
      unfold regular_axis.
      change (c :: (replicate k c ++ [n mod c]))
        with (replicate (S k) c ++ [n mod c]).
      rewrite List.removelast_last, List.last_last.
      rewrite forallb_replicate. simpl.
      apply Z.leb_le. pose proof (Z.mod_pos_bound n c Hc). lia.
Qed.

Lemma zip_blocks_regular shape chunks :
  Forall (fun c => 0 < c) chunks ->
  regular_chunks (zip_with blocks shape chunks) = true.
Proof.
  intros Hc. revert shape.
  induction Hc as [|c cs Hc _ IH]; intros [|n shape]; try reflexivity.
  simpl. unfold regular_chunks in *. simpl.
  rewrite (blocks_regular n c Hc). apply IH.
Qed.

Lemma forallb_positive chunks :
  Forall (fun c => 0 < c) chunks -> forallb (fun c => 0 <? c) chunks = true.
Proof.
  induction 1 as [|c cs Hc _ IH]; [reflexivity|].
  simpl. rewrite IH. apply Z.ltb_lt in Hc. rewrite Hc. reflexivity.
Qed.

(** [data.chunks] is a tuple of tuples and [dset.chunks] a tuple of ints:
    Python finds them equal only when both are empty. *)
Lemma chunks_py_equal d cs :
  py_eqb (dask_chunks_py d) (zarr_chunks_py cs) = true ->
  da_chunks d = [] /\ cs = [].
Proof.
  unfold dask_chunks_py, zarr_chunks_py.
  destruct (da_chunks d) as [|bs bss], cs as [|c cs']; simpl;
    intros H; try discriminate; split; reflexivity.
Qed.

(** ** Keywords *)

Lemma repeats_argument_false (kwds : kwargs) (names : list string) :
  Forall (fun k => kwds !! k = None) names -> repeats_argument kwds names = false.
Proof.
  intros Hall. unfold repeats_argument. apply bool_decide_eq_false_2.
  intros Hex. induction Hall as [|k l Hk _ IH].
  - inversion Hex.
  - inversion Hex as [? ? [v Hv]|]; subst; [congruence | auto].
Qed.

Lemma repeats_argument_true (kwds : kwargs) (names : list string) k :
  In k names -> is_Some (kwds !! k) -> repeats_argument kwds names = true.
Proof.
  intros Hin Hk. unfold repeats_argument. apply bool_decide_eq_true_2.
  apply Exists_exists. exists k. split; [|exact Hk].
  apply list_elem_of_In. exact Hin.
Qed.

Lemma without_keys_absent (names : list string) (kw : kwargs) :
  Forall (fun k => kw !! k = None) names -> without_keys names kw = kw.
Proof.
  induction 1 as [|k l Hk _ IH]; [reflexivity|].
  simpl. rewrite IH. apply delete_id. exact Hk.
Qed.


(** ** Storing one dataset *)









(** ** Chunk shapes *)

Lemma hd_blocks_nonneg n c : 0 < c -> 0 <= hd 0 (blocks n c).
Proof.
  intros Hc. unfold blocks. destruct (n =? 0); [simpl; lia|].
  destruct (Z.to_nat (n / c)) as [|k]; simpl.
  - destruct (n mod c =? 0); simpl; [lia|].
    pose proof (Z.mod_pos_bound n c Hc). lia.
  - lia.
Qed.

Lemma first_blocks_partition_nonneg shape cs :
  Forall (fun c => 0 < c) cs ->
  Forall (fun c => 0 <= c) (first_blocks (partition shape cs)).
Proof.
  intros Hc. revert shape.
  induction Hc as [|c cs Hc _ IH]; intros [|n shape]; try constructor.
  - apply hd_blocks_nonneg, Hc.
  - apply IH.
Qed.

Lemma length_first_blocks_partition shape cs :
  length cs = length shape -> length (first_blocks (partition shape cs)) = length shape.
Proof.
  intros H. unfold first_blocks, partition.
  rewrite length_map, length_zip_with. lia.
Qed.

Lemma assign_items_Ok key shape items w attrs z :
  w_fs w !! key = Some (EArray attrs z) ->
  shape = za_shape z ->
  assign_items key shape items w =
  (World (<[key := EArray attrs (ZArray (za_shape z) (za_dtype z) (za_chunks z)
                                        (za_object_codec z) (za_options z) items)]>
            (w_fs w))
         (w_signal w) (w_log w ++ [AssignedItems key]),
   Ok tt).
Proof.
  intros Hk Hs. unfold assign_items. unfold mbind, M_bind, get_world. rewrite Hk.
  destruct (decide (shape = za_shape z)) as [_|Hne]; [|contradiction].
  reflexivity.
Qed.

Lemma assign_items_wrong_shape key shape items w attrs z :
  w_fs w !! key = Some (EArray attrs z) ->
  shape <> za_shape z ->
  assign_items key shape items w =
  (w, Raise (ValueError "parameter 'value': array has the wrong shape")).
Proof.
  intros Hk Hs. unfold assign_items. unfold mbind, M_bind, get_world. rewrite Hk.
  destruct (decide (shape = za_shape z)) as [He|_]; [contradiction|].
  reflexivity.
Qed.


Section Storing.

Variable lib : library.

(** A chunk shape given as ints, none of them -1, one per axis, is
    taken as it is. *)
Lemma chunk_lengths_ints shape cs :
  length cs = length shape ->
  Forall (fun c => c <> -1) cs ->
  chunk_lengths lib shape (map PInt cs) = Ok cs.
Proof.
  intros Hlen Hcs. revert shape Hlen.
  induction Hcs as [|c cs Hc _ IH]; intros [|s shape] Hlen; try discriminate;
    [reflexivity|].
  cbn [map chunk_lengths py_eqb py_int].
  destruct (Z.eqb_spec c (-1)) as [->|_]; [contradiction|].
  rewrite IH by (simpl in Hlen; lia). reflexivity.
Qed.

Lemma normalize_chunks_tuple shape cs typesize :
  length cs = length shape ->
  Forall (fun c => c <> -1) cs ->
  normalize_chunks lib (PTuple (map PInt cs)) shape typesize = Ok cs /\
  normalize_chunks lib (PList (map PInt cs)) shape typesize = Ok cs.
Proof.
  intros Hlen Hcs. unfold normalize_chunks. rewrite length_map.
  destruct (decide (length shape < length cs)%nat); [lia|].
  rewrite Hlen, drop_all. simpl. rewrite app_nil_r.
  split; apply chunk_lengths_ints; assumption.
Qed.

(** Array creation over what is there, at the root of a store. *)
Lemma init_array_overwrite_root store shape dt chunks kw w cs :
  normalize_chunks lib chunks shape (itemsize dt) = Ok cs ->
  dt <> object_ \/ is_Some (kw !! "object_codec") ->
  init_array lib store "" shape dt chunks true kw w =
  (set_fs (fun fs =>
     <[store := EArray ∅ (ZArray shape dt cs (kw !! "object_codec")
                            (delete "object_codec" kw) [])]> (rmdir store fs)) w,
   Ok tt).
Proof.
  intros Hnorm Hcodec. unfold init_array.
  change (fs_key store "") with store.
  change (require_parent_group store "" true) with (mret tt : M unit).
  run_monad. rewrite Hnorm. simpl.
  assert (Hc : bool_decide (dt = object_)
               && negb (bool_decide (is_Some (kw !! "object_codec"))) = false).
  { destruct Hcodec as [Hd|Hk].
    - rewrite (bool_decide_eq_false_2 _ Hd). reflexivity.
    - rewrite (bool_decide_eq_true_2 _ Hk). apply andb_false_r. }
  rewrite Hc. reflexivity.
Qed.


(** Array creation where something is, under parents that are there. *)
Lemma init_array_taken store path shape dt chunks kw w e0 :
  parents_in_place store path w ->
  w_fs w !! fs_key store path = Some e0 ->
  init_array lib store path shape dt chunks false kw w =
  (w, Raise (match e0 with
             | EGroup _ => ContainsGroupError path
             | EArray _ _ => ContainsArrayError path
             end)).
Proof.
  intros Hpar Hk. unfold init_array, require_parent_group.
  rewrite (bind_run _ _ _ _ _ (require_groups_in_place _ _ _ _ Hpar)).
  run_monad. rewrite Hk. destruct e0; reflexivity.
Qed.

Lemma rechunk_Ok d chunks w :
  length chunks = length (da_shape d) ->
  Forall (fun c => 0 < c) chunks ->
  rechunk d chunks w =
  (log_event (Rechunked chunks) w,
   Ok (DaskArray (da_shape d) (da_dtype d)
                 (partition (da_shape d) chunks) (da_items d))).
Proof.
  intros Hlen Hpos. unfold rechunk.
  rewrite Hlen, Nat.eqb_refl. simpl.
  rewrite (forallb_positive _ Hpos). reflexivity.
Qed.

(** The plain bulk write: no keyword of dask's own and none that
    [zarr.create] is given by name. *)
Lemma to_zarr_overwrite d url kw w :
  regular_chunks (da_chunks d) = true ->
  length (da_chunks d) = length (da_shape d) ->
  Forall (fun c => 0 <= c) (first_blocks (da_chunks d)) ->
  Forall (fun k => kw !! k = None) (dask_keywords ++ create_arguments) ->
  da_dtype d <> object_ \/ is_Some (kw !! "object_codec") ->
  to_zarr lib d url true kw w =
  (World (<[url := EArray ∅ (ZArray (da_shape d) (da_dtype d)
                               (first_blocks (da_chunks d))
                               (kw !! "object_codec") (delete "object_codec" kw)
                               (da_items d))]> (rmdir url (w_fs w)))
         (w_signal w) (w_log w ++ [ToZarr url true kw]),
   Ok tt).
Proof.
  intros Hreg Hlen Hnn Hkw Hcodec.
  apply Forall_app in Hkw as [Hdask Hcreate].
  unfold to_zarr.
  assert (Hregion : kw !! "region" = None) by (inversion Hdask as [|? ? _ H]; inversion H as [|? ? _ H']; inversion H'; assumption).
  assert (Hcomp : kw !! "component" = None) by (inversion Hdask; assumption).
  assert (Hso : kw !! "storage_options" = None)
    by (inversion Hdask as [|? ? _ H]; inversion H; assumption).
  assert (Hcompute : kw !! "compute" = None)
    by (inversion Hdask as [|? ? _ H]; inversion H as [|? ? _ H'];
        inversion H' as [|? ? _ H'']; inversion H''; assumption).
  rewrite Hregion, Hcomp, Hso, Hcompute.
  rewrite bool_decide_eq_false_2 by (intros [[? ?]|[? ?]]; discriminate).
  rewrite (without_keys_absent _ _ Hdask).
  rewrite (repeats_argument_false _ _ Hcreate).
  rewrite Hreg.
  assert (Hnorm : normalize_chunks lib
            (PList (map (fun bs => PInt (hd 0 bs)) (da_chunks d)))
            (da_shape d) (itemsize (da_dtype d)) = Ok (first_blocks (da_chunks d))).
  { rewrite <- (map_map (fun bs => hd 0 bs) PInt).
    apply normalize_chunks_tuple.
    - unfold first_blocks. rewrite length_map. exact Hlen.
    - eapply Forall_impl; [exact Hnn|]. simpl. intros; lia. }
  unfold mbind at 1, M_bind at 1. unfold modify at 1. cbn [negb py_eqb default].
  cbn iota.
  rewrite (bind_run _ _ _ _ _
             (init_array_overwrite_root url _ _ _ kw
                (log_event (ToZarr url true kw) w) _ Hnorm Hcodec)).
  unfold modify, set_fs, log_event. simpl.
  change (fs_key url "") with url.
  rewrite alter_insert_eq. reflexivity.
Qed.



(** ** Ragged arrays *)

Lemma chunk_lengths_int shape c :
  chunk_lengths lib shape (map (fun _ => PInt c) shape) =
  Ok (map (fun s => if c =? -1 then s else c) shape).
Proof.
  induction shape as [|s shape IH]; [reflexivity|].
  cbn [map chunk_lengths py_eqb py_int]. rewrite IH.
  destruct (c =? -1); reflexivity.
Qed.

(** The call that [get_object_dset] makes once its keywords are bound. *)
Lemma get_object_dset_call group (data : source) key chunks kwds w :
  Forall (fun k => kwds !! k = None)
         ["group"; "data"; "key"; "chunks"; "object_codec"; "name"; "shape"] ->
  get_object_dset lib group data key chunks kwds w =
  require_dataset lib group key (source_shape data) py_object (PBool true)
    (object_keywords chunks kwds) w.
Proof.
  intros Hkw. unfold get_object_dset.
  change ["group"; "data"; "key"; "chunks"; "object_codec"; "name"; "shape"]
    with (["group"; "data"; "key"; "chunks"] ++ ["object_codec"; "name"; "shape"])
    in Hkw.
  apply Forall_app in Hkw as [Hparams Hrest].
  rewrite (repeats_argument_false _ _ Hparams).
  inversion Hrest as [|? ? Hcodec Hrest1]; subst.
  inversion Hrest1 as [|? ? Hname Hrest2]; subst.
  inversion Hrest2 as [|? ? Hshape _]; subst.
  rewrite !lookup_insert_ne by discriminate.
  rewrite Hcodec, Hname, Hshape.
  rewrite bool_decide_eq_false_2 by (intros [? ?]; discriminate).
  rewrite bool_decide_eq_false_2 by (intros [[? ?]|[? ?]]; discriminate).
  rewrite ?(lookup_insert_ne _ "chunks" "exact") by discriminate.
  rewrite !lookup_insert_eq. simpl.
  unfold mbind, M_bind, mret, M_ret. fold (object_keywords chunks kwds).
  destruct (require_dataset _ _ _ _ _ _ _ w) as [w' [ds|e]]; reflexivity.
Qed.

Lemma object_keywords_lookup chunks kwds i :
  i <> "chunks" -> i <> "object_codec" -> i <> "dtype" -> i <> "exact" ->
  object_keywords chunks kwds !! i = kwds !! i.
Proof.
  intros H1 H2 H3 H4. unfold object_keywords.
  rewrite lookup_insert_ne by congruence.
  rewrite !lookup_delete_ne by congruence.
  rewrite !lookup_insert_ne by congruence. reflexivity.
Qed.






End Storing.





(** ** The type codec *)


Section CodecProperties.

Variable numeric : pyval -> bool.











End CodecProperties.




(** * Further properties of the plugin *)

(** ** Frames of the root *)

Lemma zarr_group_overwrite_same_outside filename w :
  same_outside filename w (zarr_group_overwrite filename w).1.
Proof.
  unfold zarr_group_overwrite. run_monad. repeat split.
  intros k Hk. simpl. rewrite lookup_insert_ne.
  - rewrite rmdir_lookup. destruct (decide (under filename k)); [contradiction | reflexivity].
  - intros ->. apply Hk. left. reflexivity.
Qed.

Lemma zarr_open_same_outside filename w :
  same_outside filename w (zarr_open filename w).1.
Proof.
  unfold zarr_open. run_monad.
  destruct (w_fs w !! filename) as [[?|? ?]|]; simpl;
    try apply same_outside_refl.
  apply set_fs_insert_same_outside. left. reflexivity.
Qed.

Lemma attrs_set_same_outside n k v w :
  same_outside (h_store (node_handle n)) w (attrs_set n k v w).1.
Proof.
  unfold attrs_set. run_monad. repeat split. intros k' Hk'. simpl.
  apply lookup_alter_ne. intros <-. apply Hk'. apply under_fs_key.
Qed.


(** ** The set-up of a save *)

Lemma root_step_same_outside filename (b : bool) w :
  same_outside filename w
    ((if b then zarr_open filename else zarr_group_overwrite filename) w).1.
Proof.
  destruct b; [apply zarr_open_same_outside | apply zarr_group_overwrite_same_outside].
Qed.

Lemma root_step_store filename (b : bool) w w' f :
  (if b then zarr_open filename else zarr_group_overwrite filename) w = (w', Ok f) ->
  h_store (node_handle f) = filename.
Proof.
  destruct b.
  - unfold zarr_open. run_monad.
    destruct (w_fs w !! filename) as [[?|? ?]|]; intros [= <- <-]; reflexivity.
  - unfold zarr_group_overwrite. run_monad. intros [= <- <-]. reflexivity.
Qed.

(** The set-up stays inside the target directory, step by step. *)
Lemma open_experiment_group_same_outside
    (version filename : string) (kwds : kwargs) (w : world) :
  same_outside filename w (open_experiment_group version filename kwds w).1.
Proof.
  unfold open_experiment_group.
  revert w.
  apply (bind_same_outside filename (fun f => h_store (node_handle f) = filename)).
  - intros w. apply root_step_same_outside.
  - intros w w' f. apply root_step_store.
  - intros f w Hf. revert w.
    apply (bind_same_outside filename (fun _ => True)); [| trivial |].
    { intros w. rewrite <- Hf. apply attrs_set_same_outside. }
    intros _ w _. revert w.
    apply (bind_same_outside filename (fun _ => True)); [| trivial |].
    { intros w. rewrite <- Hf. apply attrs_set_same_outside. }
    intros _ w _. revert w.
    apply (bind_same_outside filename (fun e => h_store (node_handle e) = filename)).
    { intros w. rewrite <- Hf. apply create_group_same_outside. }
    { intros w w' e He. rewrite (create_group_store _ _ _ _ _ He). exact Hf. }
    intros exps w Hexps. revert w.
    apply (bind_same_outside filename (fun _ => True)); [| trivial |].
    { intros w. apply same_outside_refl. }
    intros s w _. revert w.
    apply (bind_same_outside filename (fun _ => True)); [| trivial |].
    { intros w. rewrite <- Hexps. apply create_group_same_outside. }
    intros expg w _. apply same_outside_refl.
Qed.

(** The set-up after its first step: the root is stamped and the two groups
    are created. *)
Lemma open_experiment_group_after_root version filename kwds w w0 f :
  (if write_to_storage kwds then zarr_open filename
   else zarr_group_overwrite filename) w = (w0, Ok f) ->
  open_experiment_group version filename kwds w =
  (exps ← create_group f "Experiments";
   signal ← get_signal;
   expg ← create_group exps (experiment_group_name (title signal));
   mret (f, expg, with_compressor kwds))
    (set_fs (fun fs =>
       alter (stamped version) (handle_key (node_handle f)) fs) w0).
Proof.
  intros H. unfold open_experiment_group.
  fold (with_compressor kwds). fold (write_to_storage (with_compressor kwds)).
  rewrite write_to_storage_with_compressor.
  rewrite (bind_run _ _ _ _ _ H).
  unfold attrs_set, stamped. run_monad. unfold set_fs. simpl.
  rewrite alter_alter_eq. reflexivity.
Qed.

(** X1. Whatever its outcome, the set-up of [file_writer] (zspy.py
    182-198) changes nothing outside the target directory: every path that
    is not [filename] or below it holds what it held, and the signal and
    the log are as they were. *)
Theorem setup_stays_under_filename (version filename : string) (kwds : kwargs) (w : world) :
  (forall k,
     k <> filename -> String.prefix (filename +:+ "/") k = false ->
     w_fs (open_experiment_group version filename kwds w).1 !! k = w_fs w !! k) /\
  w_signal (open_experiment_group version filename kwds w).1 = w_signal w /\
  w_log (open_experiment_group version filename kwds w).1 = w_log w.
Proof.
  destruct (open_experiment_group_same_outside version filename kwds w)
    as (Hfs & Hsig & Hlog).
  split; [|split; assumption].
  intros k Hne Hpre. apply Hfs. intros [Heq|Hunder].
  - contradiction.
  - rewrite Hunder in Hpre. discriminate.
Qed.

Section WriterOutcomes.

Variable version : string.
Variable HierarchicalWriter_init : node -> node -> kwargs -> M unit.
Variable HierarchicalWriter_write : ZspyWriter -> M unit.

(** X2. When the set-up raises (the path cannot be opened, or a group
  cannot be created), [file_writer] raises that exception: the writer is
  not made, [record_by] is never set, and the signal is as the caller
  passed it. *)
Theorem file_writer_setup_failure filename kwds w w1 e :
open_experiment_group version filename kwds w = (w1, Raise e) ->
file_writer version HierarchicalWriter_init HierarchicalWriter_write
  filename kwds w = (w1, Raise e) /\
w_signal w1 = w_signal w /\
w_log w1 = w_log w.
Proof.
intros H. split.
- unfold file_writer. apply bind_raise. exact H.
- pose proof (open_experiment_group_same_outside version filename kwds w)
    as (_ & Hs & Hl).
  rewrite H in Hs, Hl. split; assumption.
Qed.

(** X3. With a writer that, in the call at hand, leaves the signal object
  alone, [file_writer] hands the writer's outcome on and leaves the
  signal's [metadata.Signal] as it was but for [record_by]: if the caller
  had no [record_by] the signal is exactly as before, and a [record_by]
  the caller had set is gone. *)
Theorem file_writer_restores_signal filename kwds w w1 f expg kw :
open_experiment_group version filename kwds w = (w1, Ok (f, expg, kw)) ->
w_signal (ZspyWriter_run HierarchicalWriter_init HierarchicalWriter_write
            f expg kw (with_record_by w1)).1 = w_signal (with_record_by w1) ->
let out := file_writer version HierarchicalWriter_init HierarchicalWriter_write
             filename kwds w in
out.2 = (ZspyWriter_run HierarchicalWriter_init HierarchicalWriter_write
           f expg kw (with_record_by w1)).2 /\
title (w_signal out.1) = title (w_signal w) /\
signal_dimension (w_signal out.1) = signal_dimension (w_signal w) /\
data (w_signal out.1) = data (w_signal w) /\
Signal_md (w_signal out.1) = delete "record_by" (Signal_md (w_signal w)) /\
(Signal_md (w_signal w) !! "record_by" = None -> w_signal out.1 = w_signal w).
Proof.
intros Hopen Hkeep out.
pose proof (open_experiment_group_same_outside version filename kwds w)
  as (_ & Hsig & _).
rewrite Hopen in Hsig. simpl in Hsig.
subst out. rewrite (file_writer_run _ _ _ _ _ _ _ _ _ _ Hopen).
rewrite write_with_record_by_run. cbv zeta.
set (run := ZspyWriter_run _ _ f expg kw (with_record_by w1)) in *.
rewrite Hkeep, with_record_by_lookup.
assert (Hmd : w_signal (without_record_by run.1) =
              Signal (title (w_signal w))
                     (delete "record_by" (Signal_md (w_signal w)))
                     (signal_dimension (w_signal w)) (data (w_signal w))).
{ unfold without_record_by, set_Signal_md. cbn [w_signal].
  rewrite Hkeep. unfold with_record_by, set_Signal_md. cbn [w_signal Signal_md title signal_dimension data].
  rewrite delete_insert_eq, Hsig. reflexivity. }
cbn [fst snd]. rewrite Hmd. cbn [title Signal_md signal_dimension data].
repeat split.
intros Hnone. rewrite delete_id by exact Hnone.
destruct (w_signal w); reflexivity.
Qed.

(** X4. With a true [write_to_storage] on a path whose root group already
  has something named "Experiments" (any earlier save has), [file_writer]
  stamps the two format attributes on the root and then fails in
  [create_group('Experiments')]: the writer never runs, the signal is
  untouched and no other path of the store changes. *)
Theorem file_writer_into_saved_store filename kwds w attrs e0 :
write_to_storage kwds = true ->
w_fs w !! filename = Some (EGroup attrs) ->
w_fs w !! (filename +:+ "/Experiments") = Some e0 ->
let out := file_writer version HierarchicalWriter_init HierarchicalWriter_write
             filename kwds w in
out.2 = Raise (match e0 with
               | EGroup _ => ContainsGroupError "Experiments"
               | EArray _ _ => ContainsArrayError "Experiments"
               end) /\
w_fs out.1 !! filename = Some (stamped version (EGroup attrs)) /\
(forall k, k <> filename -> w_fs out.1 !! k = w_fs w !! k) /\
w_signal out.1 = w_signal w /\
w_log out.1 = w_log w.
Proof.
intros Hw Hroot Hexp out.
assert (Hopen : (if write_to_storage kwds then zarr_open filename
                 else zarr_group_overwrite filename) w =
                (w, Ok (GroupNode (Handle filename "")))).
{ rewrite Hw. unfold zarr_open. run_monad. rewrite Hroot. reflexivity. }
pose proof (open_experiment_group_after_root version _ _ _ _ _ Hopen) as Hsetup.
set (w0 := set_fs (fun fs => alter (stamped version)
               (handle_key (node_handle (GroupNode (Handle filename "")))) fs) w) in *.
assert (Htaken : w_fs w0 !! fs_key filename "Experiments" = Some e0).
{ subst w0. simpl. rewrite lookup_alter_ne; [exact Hexp|].
  apply not_eq_sym, append_slash_ne. }
assert (Hparents : Forall (fun p => exists a,
                      w_fs w0 !! fs_key (h_store (Handle filename "")) p
                      = Some (EGroup a)) (parent_paths "Experiments")).
{ constructor; [|constructor]. subst w0. simpl.
  change (handle_key {| h_store := filename; h_path := "" |}) with filename.
  change (fs_key filename "") with filename.
  rewrite lookup_alter_eq, Hroot. simpl. eauto. }
rewrite (bind_raise _ _ _ _ _
           (create_group_taken (Handle filename "") "Experiments" "Experiments"
              _ _ eq_refl Hparents Htaken))
  in Hsetup.
subst out. unfold file_writer. rewrite (bind_raise _ _ _ _ _ Hsetup).
subst w0. simpl.
split; [destruct e0; reflexivity|]. split; [|split; [|split; reflexivity]].
- change (handle_key {| h_store := filename; h_path := "" |}) with filename.
  rewrite lookup_alter_eq, Hroot. reflexivity.
- intros k Hk. apply lookup_alter_ne. exact (not_eq_sym Hk).
Qed.

(** X5. With a true [write_to_storage] on a path that holds an array,
  [zarr.open] returns the array: [file_writer] writes the two format
  attributes onto that array and then fails with [AttributeError], an
  array having no [create_group]; the array's data stay and the writer
  never runs. *)
Theorem file_writer_onto_array filename kwds w attrs a :
write_to_storage kwds = true ->
w_fs w !! filename = Some (EArray attrs a) ->
let out := file_writer version HierarchicalWriter_init HierarchicalWriter_write
             filename kwds w in
out.2 = Raise (AttributeError "'Array' object has no attribute 'create_group'") /\
w_fs out.1 !! filename =
  Some (EArray (<["file_format_version" := PStr version]>
                  (<["file_format" := PStr "ZSpy"]> attrs)) a) /\
(forall k, k <> filename -> w_fs out.1 !! k = w_fs w !! k) /\
w_signal out.1 = w_signal w.
Proof.
intros Hw Hroot out.
assert (Hopen : (if write_to_storage kwds then zarr_open filename
                 else zarr_group_overwrite filename) w =
                (w, Ok (ArrayNode (Handle filename "")))).
{ rewrite Hw. unfold zarr_open. run_monad. rewrite Hroot. reflexivity. }
pose proof (open_experiment_group_after_root version _ _ _ _ _ Hopen) as Hsetup.
rewrite (bind_raise _ _ _
           (set_fs (fun fs => alter (stamped version)
              (handle_key (node_handle (ArrayNode (Handle filename "")))) fs) w)
           (AttributeError "'Array' object has no attribute 'create_group'"))
  in Hsetup by reflexivity.
subst out. unfold file_writer. rewrite (bind_raise _ _ _ _ _ Hsetup).
simpl. change (handle_key {| h_store := filename; h_path := "" |}) with filename.
split; [reflexivity|]. split; [|split; [|reflexivity]].
- rewrite lookup_alter_eq, Hroot. reflexivity.
- intros k Hk. apply lookup_alter_ne. exact (not_eq_sym Hk).
Qed.

End WriterOutcomes.

(** ** The outcomes of a save on the sample inputs *)

Lemma file_writer_setup_failure_witness :
  (sample_file_writer "/tmp/a.zspy" {[ "write_to_storage" := PBool true ]} saved_world).2
    = Raise (ContainsGroupError "Experiments") /\
  w_signal (sample_file_writer "/tmp/a.zspy" {[ "write_to_storage" := PBool true ]}
              saved_world).1 = image.
Proof.
  destruct (file_writer_setup_failure "3.1" sample_init sample_write "/tmp/a.zspy"
              {[ "write_to_storage" := PBool true ]} saved_world
              (open_experiment_group "3.1" "/tmp/a.zspy"
                 {[ "write_to_storage" := PBool true ]} saved_world).1
              (ContainsGroupError "Experiments"))
    as (Hrun & Hsig & _).
  - vm_compute. reflexivity.
  - unfold sample_file_writer. rewrite Hrun. split; [reflexivity | exact Hsig].
Defined.

Lemma file_writer_restores_signal_witness :
  w_signal (sample_file_writer "/tmp/a.zspy" ∅ (empty_world spectrum)).1 = spectrum.
Proof.
  destruct (file_writer_restores_signal "3.1" sample_init sample_write
              "/tmp/a.zspy" ∅ (empty_world spectrum) spectrum_setup.1 root_node
              (GroupNode (Handle "/tmp/a.zspy" "Experiments/EELS-OK"))
              {[ "compressor" := Blosc_zstd_1 ]} spectrum_setup_Ok)
    as (_ & _ & _ & _ & _ & Hsame).
  - vm_compute. reflexivity.
  - apply Hsame. reflexivity.
Defined.

Lemma file_writer_into_saved_store_witness :
  (sample_file_writer "/tmp/a.zspy" {[ "write_to_storage" := PBool true ]} saved_world).2
    = Raise (ContainsGroupError "Experiments") /\
  w_fs (sample_file_writer "/tmp/a.zspy" {[ "write_to_storage" := PBool true ]}
          saved_world).1 !! "/tmp/a.zspy/Experiments/EELS-OK" = Some (EGroup ∅).
Proof.
  destruct (file_writer_into_saved_store "3.1" sample_init sample_write "/tmp/a.zspy"
              {[ "write_to_storage" := PBool true ]} saved_world
              (format_attrs "3.1") (EGroup ∅))
    as (Hout & _ & Hrest & _).
  - reflexivity.
  - vm_compute. reflexivity.
  - vm_compute. reflexivity.
  - split; [exact Hout|]. unfold sample_file_writer.
    rewrite Hrest by discriminate. vm_compute. reflexivity.
Defined.

Lemma file_writer_onto_array_witness :
  w_fs (sample_file_writer "/tmp/arr.zspy" {[ "write_to_storage" := PBool true ]}
          array_world).1 !! "/tmp/arr.zspy" =
  Some (EArray (format_attrs "3.1") (ZArray [1] int8 [1] None ∅ [PInt 7])).
Proof.
  destruct (file_writer_onto_array "3.1" sample_init sample_write "/tmp/arr.zspy"
              {[ "write_to_storage" := PBool true ]} array_world
              ∅ (ZArray [1] int8 [1] None ∅ [PInt 7]))
    as (_ & Hroot & _).
  - reflexivity.
  - reflexivity.
  - exact Hroot.
Defined.

(** ** Datasets that are already there *)

Lemma repeats_argument_ext (m1 m2 : kwargs) (names : list string) :
  (forall k, In k names -> m1 !! k = m2 !! k) ->
  repeats_argument m1 names = repeats_argument m2 names.
Proof.
  intros H. unfold repeats_argument. apply bool_decide_ext.
  rewrite !Exists_exists. split; intros (k & Hin & Hk); exists k; (split; [exact Hin|]).
  - rewrite <- H by (apply list_elem_of_In; exact Hin). exact Hk.
  - rewrite H by (apply list_elem_of_In; exact Hin). exact Hk.
Qed.

Section ExistingDatasets.

Variable lib : library.

Lemma object_call_keywords (kwds : kwargs) :
kwds !! "object_codec" = None -> kwds !! "name" = None -> kwds !! "shape" = None ->
Forall (fun k => kwds !! k = None) ["group"; "data"; "key"; "chunks"] ->
Forall (fun k => kwds !! k = None)
       ["group"; "data"; "key"; "chunks"; "object_codec"; "name"; "shape"].
Proof.
intros H1 H2 H3 H.
change ["group"; "data"; "key"; "chunks"; "object_codec"; "name"; "shape"]
  with (["group"; "data"; "key"; "chunks"] ++ ["object_codec"; "name"; "shape"]).
apply Forall_app. split; [exact H|]. repeat constructor; assumption.
Qed.

(** X6. When the key already holds an array of the source's shape and of
  object dtype, [get_object_dset] returns a handle on that array and
  changes nothing in the store: the array keeps the chunk shape and the
  codec it has, whatever chunks were asked for. *)
Theorem get_object_dset_returns_existing
  group (data : source) key path chunks kwds w attrs a :
kwds !! "object_codec" = None ->
kwds !! "name" = None ->
kwds !! "shape" = None ->
Forall (fun k => kwds !! k = None) ["group"; "data"; "key"; "chunks"] ->
item_path group key = Ok path ->
w_fs w !! fs_key (h_store group) path = Some (EArray attrs a) ->
za_shape a = source_shape data ->
za_dtype a = object_ ->
get_object_dset lib group data key chunks kwds w =
(log_event (RequiredDataset path) w,
 Ok (Dataset (h_store group) path (za_chunks a))).
Proof.
intros Hcodec Hname Hshape Hparams Hpath Hk Hsh Hdt.
rewrite get_object_dset_call by (apply object_call_keywords; assumption).
unfold require_dataset. rewrite Hpath. run_monad. rewrite Hk. simpl.
rewrite Hsh, Hdt.
rewrite !bool_decide_eq_true_2 by reflexivity. reflexivity.
Qed.

(** X7. When the key holds a group, or an array of another shape or of a
  dtype that is not object, [get_object_dset] raises
  ([ContainsGroupError], resp. [TypeError]) and leaves the store as it
  is: it never deletes or replaces what is in its way, unless it is
  told to with [overwrite]. *)
Theorem get_object_dset_refuses_mismatch
  group (data : source) key path chunks kwds w e0 :
kwds !! "object_codec" = None ->
kwds !! "name" = None ->
kwds !! "shape" = None ->
Forall (fun k => kwds !! k = None) ["group"; "data"; "key"; "chunks"] ->
item_path group key = Ok path ->
w_fs w !! fs_key (h_store group) path = Some e0 ->
match e0 with
| EGroup _ =>
    parents_in_place (h_store group) path w /\
    Forall (fun k => kwds !! k = None) ["store"; "path"; "chunk_store"; "overwrite"]
| EArray _ a => za_shape a <> source_shape data \/ za_dtype a <> object_
end ->
get_object_dset lib group data key chunks kwds w =
(log_event (RequiredDataset path) w,
 Raise (match e0 with
        | EGroup _ => ContainsGroupError path
        | EArray _ a =>
            if bool_decide (source_shape data = za_shape a)
            then TypeError "dtypes do not match"
            else TypeError "shape do not match existing array"
        end)).
Proof.
intros Hcodec Hname Hshape Hparams Hpath Hk Hbad.
rewrite get_object_dset_call by (apply object_call_keywords; assumption).
unfold require_dataset. rewrite Hpath.
unfold mbind at 1, M_bind at 1, modify at 1.
unfold mbind at 1, M_bind at 1, get_world at 1.
cbn [w_fs log_event]. rewrite Hk.
destruct e0 as [at0|at0 a].
- destruct Hbad as [Hpar Hkw].
  rewrite repeats_argument_false.
  2:{ inversion Hkw as [|? ? H1 Hkw1]; subst. inversion Hkw1 as [|? ? H2 Hkw2]; subst.
      inversion Hkw2 as [|? ? H3 _]; subst.
      repeat constructor; rewrite object_keywords_lookup by discriminate; assumption. }
  cbn [np_dtype py_object].
  assert (Hover : object_keywords chunks kwds !! "overwrite" = None).
  { rewrite object_keywords_lookup by discriminate.
    inversion Hkw as [|? ? _ Hkw1]; subst. inversion Hkw1 as [|? ? _ Hkw2]; subst.
    inversion Hkw2 as [|? ? _ Hkw3]; subst. inversion Hkw3; assumption. }
  rewrite Hover. cbn [default truthy].
  rewrite (bind_raise _ _ _ _ _
             (init_array_taken lib (h_store group) path (source_shape data) object_
                (default (PBool true) (object_keywords chunks kwds !! "chunks"))
                (without_keys ["chunks"; "overwrite"] (object_keywords chunks kwds))
                (log_event (RequiredDataset path) w) (EGroup at0) Hpar Hk)).
  reflexivity.
- simpl.
  destruct (bool_decide (source_shape data = za_shape a)) eqn:Hs; simpl;
    [|reflexivity].
  apply bool_decide_eq_true_1 in Hs.
  destruct Hbad as [Hbad|Hbad]; [congruence|].
  rewrite bool_decide_eq_false_2 by congruence. reflexivity.
Qed.

(** X8. A keyword among [kwds] that names a parameter of
  [get_object_dset] ([group], [data], [key], [chunks]) or an argument
  it passes itself ([object_codec], [name], [shape]) makes the call a
  [TypeError], and nothing at all happens to the store or the log. *)
Theorem get_object_dset_keyword_collision
  group (data : source) key chunks kwds w :
is_Some (kwds !! "object_codec") \/ is_Some (kwds !! "name")
  \/ is_Some (kwds !! "shape")
  \/ Exists (fun k => is_Some (kwds !! k)) ["group"; "data"; "key"; "chunks"] ->
exists msg,
  get_object_dset lib group data key chunks kwds w =
  (w, Raise (TypeError msg)).
Proof.
intros H. unfold get_object_dset.
destruct (repeats_argument kwds ["group"; "data"; "key"; "chunks"]) eqn:Hp;
  [eexists; reflexivity|].
apply bool_decide_eq_false_1 in Hp.
rewrite !lookup_insert_ne by discriminate.
destruct (bool_decide (is_Some (kwds !! "object_codec"))) eqn:Hc;
  [eexists; reflexivity|].
apply bool_decide_eq_false_1 in Hc.
destruct H as [H|[H|[H|H]]]; try contradiction.
- rewrite bool_decide_eq_true_2 by (left; exact H). eexists; reflexivity.
- rewrite bool_decide_eq_true_2 by (right; exact H). eexists; reflexivity.
Qed.

(** X9. What the caller passes under [dtype] or [exact] in [kwds] has no
  effect: [get_object_dset] overrides both with object and True. A
  [chunks] among the keywords cannot be passed at all, [chunks] being a
  parameter of the function: the call is a [TypeError]. *)
Theorem get_object_dset_overrides_keywords
  group (data : source) key chunks kwds w (v : pyval) :
get_object_dset lib group data key chunks (<["dtype" := v]> kwds) w =
  get_object_dset lib group data key chunks kwds w /\
get_object_dset lib group data key chunks (<["exact" := v]> kwds) w =
  get_object_dset lib group data key chunks kwds w /\
get_object_dset lib group data key chunks (<["chunks" := v]> kwds) w =
  (w, Raise (TypeError "get_object_dset() got multiple values for argument")).
Proof.
assert (Heq : forall k, k = "dtype" \/ k = "exact" ->
  <["chunks" := chunks]> (<["exact" := PBool true]>
     (<["dtype" := py_object]> (<[k := v]> kwds))) =
  <["chunks" := chunks]> (<["exact" := PBool true]>
     (<["dtype" := py_object]> kwds))).
{ intros k Hk. apply map_eq. intros i.
  destruct (decide (i = "chunks")) as [->|H1];
    [rewrite !lookup_insert_eq; reflexivity|].
  rewrite !(lookup_insert_ne _ "chunks") by congruence.
  destruct (decide (i = "exact")) as [->|H2];
    [rewrite !lookup_insert_eq; reflexivity|].
  rewrite !(lookup_insert_ne _ "exact") by congruence.
  destruct (decide (i = "dtype")) as [->|H3];
    [rewrite !lookup_insert_eq; reflexivity|].
  rewrite !(lookup_insert_ne _ "dtype") by congruence.
  apply lookup_insert_ne. destruct Hk as [-> | ->]; congruence. }
assert (Hrep : forall k, k = "dtype" \/ k = "exact" ->
  repeats_argument (<[k := v]> kwds) ["group"; "data"; "key"; "chunks"] =
  repeats_argument kwds ["group"; "data"; "key"; "chunks"]).
{ intros k Hk. apply repeats_argument_ext. intros i Hi.
  apply lookup_insert_ne. simpl in Hi.
  destruct Hk as [-> | ->]; intuition congruence. }
unfold get_object_dset.
rewrite !Heq, !Hrep by auto.
split; [reflexivity|]. split; [reflexivity|].
rewrite (repeats_argument_true _ _ "chunks"); [reflexivity | simpl; tauto |].
rewrite lookup_insert_eq. eauto.
Qed.

End ExistingDatasets.

(** ** What [_store_data] touches *)





Lemma touches_only_insert_rmdir u e w :
  touches_only u w (set_fs (fun fs => <[u := e]> (rmdir u fs)) w).
Proof.
  split; [|reflexivity]. intros k Hk. simpl.
  rewrite lookup_insert_ne by (intros ->; apply Hk, under_refl).
  rewrite rmdir_lookup. destruct (decide (under u k)); [contradiction | reflexivity].
Qed.










Lemma rmdir_absent u (fs : gmap string entry) :
  (forall k, under u k -> fs !! k = None) -> rmdir u fs = fs.
Proof.
  intros H. apply map_eq. intros k. rewrite rmdir_lookup.
  destruct (decide (under u k)) as [Hu|]; [|reflexivity].
  symmetry. apply H, Hu.
Qed.

Section StoringMore.

Variable lib : library.






(** X11. A numpy source whose dtype is not object is written through
  [zarr.open_array(path, mode="w", ...)]: everything under the dataset's
  path is removed and a new array of the source's shape and dtype, with
  the chunk shape that the [chunks] argument asks for (a tuple of ints
  as it is, an int along every axis, -1 for the whole axis; not the
  handle's) and the other keywords as given, receives the data; of the
  handle only the path is used. *)
Theorem _store_data_dense_writes_new_array
  (a : ndarray) (dset : dataset) (group : handle) (key : string)
  (chunks : pyval) (kwds : kwargs) (w : world) (cs : list Z) :
nd_dtype a <> object_ ->
Forall (fun k => kwds !! k = None) dense_reserved ->
normalize_chunks lib chunks (nd_shape a) (itemsize (nd_dtype a)) = Ok cs ->
(forall cs', chunks = PTuple (map PInt cs') ->
   length cs' = length (nd_shape a) -> Forall (fun c => c <> -1) cs' ->
   cs = cs') /\
(forall c, chunks = PInt c ->
   cs = map (fun s => if c =? -1 then s else c) (nd_shape a)) /\
_store_data lib (Dense a) dset group key chunks kwds w =
(World (<[h_store group +:+ "/" +:+ ds_path dset :=
            EArray ∅ (ZArray (nd_shape a) (nd_dtype a) cs
                             (kwds !! "object_codec") (delete "object_codec" kwds)
                             (nd_items a))]>
          (rmdir (h_store group +:+ "/" +:+ ds_path dset) (w_fs w)))
       (w_signal w)
       (w_log w ++ [OpenedArray (h_store group +:+ "/" +:+ ds_path dset) "w";
                    AssignedItems (h_store group +:+ "/" +:+ ds_path dset)]),
 Ok tt).
Proof.
intros Hdt Hkw Hnorm.
split; [|split].
{ intros cs' -> Hlen Hcs'.
  destruct (normalize_chunks_tuple lib (nd_shape a) cs' (itemsize (nd_dtype a))
              Hlen Hcs') as [Ht _].
  rewrite Ht in Hnorm. congruence. }
{ intros c ->. unfold normalize_chunks in Hnorm.
  rewrite chunk_lengths_int in Hnorm. congruence. }
unfold dense_reserved in Hkw.
apply Forall_app in Hkw as [Hparams Hkw].
apply Forall_app in Hkw as [Hopen Hstore].
unfold _store_data.
rewrite (repeats_argument_false _ _ Hparams).
rewrite bool_decide_eq_false_2 by exact Hdt.
rewrite (repeats_argument_false _ _ Hopen).
set (path := h_store group +:+ "/" +:+ ds_path dset).
assert (Hopened :
  open_array_w lib path (nd_shape a) (nd_dtype a) chunks kwds w =
  (World (<[path := EArray ∅ (ZArray (nd_shape a) (nd_dtype a) cs
                                (kwds !! "object_codec") (delete "object_codec" kwds)
                                [])]> (rmdir path (w_fs w)))
         (w_signal w) (w_log w ++ [OpenedArray path "w"]),
   Ok (Dataset path "" cs))).
{ unfold open_array_w.
  rewrite (repeats_argument_false _ _ Hstore).
  rewrite (without_keys_absent _ _ Hstore).
  unfold mbind at 1, M_bind at 1, modify at 1.
  rewrite (bind_run _ _ _ _ _
             (init_array_overwrite_root lib path (nd_shape a) (nd_dtype a) chunks kwds
                (log_event (OpenedArray path "w") w) cs Hnorm (or_introl Hdt))).
  unfold mbind, M_bind, get_world, mret, M_ret.
  change (fs_key path "") with path.
  cbn [w_fs set_fs log_event]. rewrite lookup_insert_eq. reflexivity. }
rewrite (bind_run _ _ _ _ _ Hopened).
cbn [ds_store ds_path]. change (fs_key path "") with path.
rewrite (assign_items_Ok path (nd_shape a) (nd_items a) _ ∅
           (ZArray (nd_shape a) (nd_dtype a) cs (kwds !! "object_codec")
                   (delete "object_codec" kwds) []));
  [|cbn [w_fs]; apply lookup_insert_eq | reflexivity].
cbn [w_fs w_signal w_log za_shape za_dtype za_chunks za_object_codec za_options].
rewrite insert_insert_eq, <- app_assoc. reflexivity.
Qed.

(** X12. A numpy source of object dtype is only ever assigned into an
  array that is under the key: where nothing is, [_store_data] raises
  [KeyError]; an array of another shape is a [ValueError]; and a group
  under the key takes the assignment for the creation of an array named
  after the slice, which stops at the missing object codec with a
  [ValueError]. Each leaves the world as it was (in the last case with
  the group's parents in place and nothing under that name). *)
Theorem _store_data_ragged_needs_dataset
  (a : ndarray) (dset : dataset) (group : handle) (key path : string)
  (chunks : pyval) (kwds : kwargs) (w : world) :
nd_dtype a = object_ ->
Forall (fun k => kwds !! k = None) ["data"; "dset"; "group"; "key"; "chunks"] ->
item_path group key = Ok path ->
let k := fs_key (h_store group) path in
let out := _store_data lib (Dense a) dset group key chunks kwds w in
(w_fs w !! k = None -> out = (w, Raise (KeyError key))) /\
(forall attrs z, w_fs w !! k = Some (EArray attrs z) ->
   nd_shape a <> za_shape z ->
   out = (w, Raise (ValueError "parameter 'value': array has the wrong shape"))) /\
(forall attrs inner, w_fs w !! k = Some (EGroup attrs) ->
   item_path (Handle (h_store group) path) slice_all = Ok inner ->
   parents_in_place (h_store group) inner w ->
   (forall k', under (fs_key (h_store group) inner) k' -> w_fs w !! k' = None) ->
   out = (w, Raise (ValueError "missing object_codec for object array"))).
Proof.
intros Hobj Hkw Hpath k out. subst out.
unfold _store_data.
rewrite (repeats_argument_false _ _ Hkw).
rewrite bool_decide_eq_true_2 by exact Hobj.
unfold group_getitem. rewrite Hpath. fold k.
unfold mbind, M_bind, get_world.
split; [|split].
- intros ->. reflexivity.
- intros attrs z Hk Hne. rewrite Hk.
  unfold mret, M_ret, setitem_all, handle_key. cbn [h_store h_path]. fold k.
  apply (assign_items_wrong_shape k _ _ w attrs z Hk Hne).
- intros attrs inner Hk Hinner Hpar Hnothing. rewrite Hk.
  unfold mret, M_ret, setitem_all, group_setitem_all. rewrite Hinner.
  cbn [h_store]. unfold require_parent_group.
  rewrite (bind_run _ _ _ _ _ (require_groups_in_place _ _ _ _ Hpar)).
  unfold mbind, M_bind, modify, raise, set_fs.
  rewrite (rmdir_absent _ _ Hnothing). destruct w; reflexivity.
Qed.

(** X21. For a lazy source that has an axis, [data.chunks != dset.chunks]
  holds whatever the two chunkings are, one being a tuple of tuples and
  the other a tuple of ints: the array is handed to [rechunk] before
  the bulk write also when its partition is the dataset's already. *)
Theorem _store_data_rechunks_whatever_the_chunks
  (d : dask_array) (dset : dataset) (group : handle) (key : string)
  (chunks : pyval) (kwds : kwargs) (w : world) :
da_shape d <> [] ->
length (ds_chunks dset) = length (da_shape d) ->
Forall (fun c => 0 < c) (ds_chunks dset) ->
Forall (fun k => kwds !! k = None) lazy_reserved ->
da_dtype d <> object_ \/ is_Some (kwds !! "object_codec") ->
py_eqb (dask_chunks_py d) (zarr_chunks_py (ds_chunks dset)) = false /\
w_log (_store_data lib (Lazy d) dset group key chunks kwds w).1 =
  w_log w ++ [Rechunked (ds_chunks dset);
              ToZarr (h_store group +:+ "/" +:+ ds_path dset) true kwds].
Proof.
intros Hrank Hlen Hpos Hkw Hcodec.
assert (Hne : py_eqb (dask_chunks_py d) (zarr_chunks_py (ds_chunks dset)) = false).
{ destruct (py_eqb _ _) eqn:He; [|reflexivity].
  apply chunks_py_equal in He as [_ Hcs]. rewrite Hcs in Hlen.
  destruct (da_shape d); [contradiction | discriminate]. }
split; [exact Hne|].
unfold lazy_reserved in Hkw.
apply Forall_app in Hkw as [Hparams Hkw].
apply Forall_app in Hkw as [Hurl Hkw].
unfold _store_data.
rewrite (repeats_argument_false _ _ Hparams), (repeats_argument_false _ _ Hurl), Hne.
cbn [negb].
rewrite (bind_run _ _ _ _ _ (rechunk_Ok d _ w Hlen Hpos)).
rewrite to_zarr_overwrite; try assumption.
- simpl. rewrite <- app_assoc. reflexivity.
- apply zip_blocks_regular; exact Hpos.
- simpl. unfold partition. rewrite length_zip_with. lia.
- apply first_blocks_partition_nonneg, Hpos.
Qed.

End StoringMore.

(** ** Datasets on the sample inputs *)

(** Asking for chunks (1,) where the dataset exists with chunks (2,). *)
Lemma get_object_dset_returns_existing_witness :
  (get_object_dset sample_lib sample_group (Dense ragged_rows) "data"
     (PTuple [PInt 1]) {[ "compressor" := Blosc_zstd_1 ]} ragged_world).2 =
  Ok (Dataset "/tmp/l.zspy" "Experiments/__unnamed__/data" [2]).
Proof.
  rewrite (get_object_dset_returns_existing sample_lib sample_group
             (Dense ragged_rows) "data" "Experiments/__unnamed__/data"
             (PTuple [PInt 1])
             {[ "compressor" := Blosc_zstd_1 ]} ragged_world ∅
             (ZArray [2] object_ [2] (Some VLenArray_int)
                     {[ "compressor" := Blosc_zstd_1 ]} []));
    try reflexivity.
  repeat constructor.
Defined.

(** The ragged rows where an int8 array of shape (1,) is in the way. *)
Lemma get_object_dset_refuses_mismatch_witness :
  get_object_dset sample_lib sample_group (Dense ragged_rows) "data"
    (PTuple [PInt 2]) {[ "compressor" := Blosc_zstd_1 ]} stale_world =
  (log_event (RequiredDataset "Experiments/__unnamed__/data") stale_world,
   Raise (TypeError "shape do not match existing array")).
Proof.
  rewrite (get_object_dset_refuses_mismatch sample_lib sample_group
             (Dense ragged_rows) "data" "Experiments/__unnamed__/data"
             (PTuple [PInt 2])
             {[ "compressor" := Blosc_zstd_1 ]} stale_world
             (EArray {[ "old" := PBool true ]} (ZArray [1] int8 [1] None ∅ [PInt 7]))).
  - reflexivity.
  - reflexivity.
  - reflexivity.
  - reflexivity.
  - repeat constructor.
  - reflexivity.
  - vm_compute. reflexivity.
  - left. discriminate.
Defined.

Lemma get_object_dset_keyword_collision_witness :
  exists msg,
    get_object_dset sample_lib sample_group (Dense ragged_rows) "data"
      (PTuple [PInt 2]) {[ "object_codec" := JSON_codec ]} (empty_world image) =
    (empty_world image, Raise (TypeError msg)).
Proof.
  apply (get_object_dset_keyword_collision sample_lib sample_group
           (Dense ragged_rows) "data" (PTuple [PInt 2])
           {[ "object_codec" := JSON_codec ]} (empty_world image)).
  left. eexists. reflexivity.
Defined.

(** Three floats written over the stale array with chunks (2,) asked for,
    where the handle says (2, 2) and the heuristic (3,); and with the int
    -1, which is the whole axis. *)
Lemma _store_data_dense_witness :
  w_fs (_store_data sample_lib (Dense three_floats) sample_dset sample_group "data"
          (PTuple [PInt 2]) {[ "compressor" := Blosc_zstd_1 ]} stale_world).1 =
  {[ "/tmp/l.zspy/Experiments/__unnamed__/data" :=
       EArray ∅ (ZArray [3] float64 [2] None {[ "compressor" := Blosc_zstd_1 ]}
                        [PInt 1; PInt 2; PInt 3]) ]} /\
  normalize_chunks sample_lib (PInt (-1)) [3] 8 = Ok [3].
Proof.
  destruct (_store_data_dense_writes_new_array sample_lib three_floats sample_dset
              sample_group "data" (PTuple [PInt 2])
              {[ "compressor" := Blosc_zstd_1 ]} stale_world [2])
    as (_ & _ & Hrun).
  - discriminate.
  - repeat constructor.
  - reflexivity.
  - rewrite Hrun. split; vm_compute; reflexivity.
Defined.

(** The ragged rows with no dataset made for them. *)
Lemma _store_data_ragged_witness :
  _store_data sample_lib (Dense ragged_rows) sample_dset sample_group "data"
    (PTuple [PInt 2]) {[ "compressor" := Blosc_zstd_1 ]} (empty_world image) =
  (empty_world image, Raise (KeyError "data")).
Proof.
  destruct (_store_data_ragged_needs_dataset sample_lib ragged_rows sample_dset
              sample_group "data" "Experiments/__unnamed__/data" (PTuple [PInt 2])
              {[ "compressor" := Blosc_zstd_1 ]} (empty_world image))
    as (Hmissing & _).
  - reflexivity.
  - repeat constructor.
  - reflexivity.
  - apply Hmissing. reflexivity.
Defined.

(** The lazy array in blocks ((2,), (2, 2)) and the dataset in chunks
    (2, 2): the partition is the dataset's, and the array is rechunked. *)
Lemma _store_data_rechunks_witness :
  da_chunks lazy_zeros = partition (da_shape lazy_zeros) (ds_chunks sample_dset) /\
  w_log (_store_data sample_lib (Lazy lazy_zeros) sample_dset sample_group "data" PNone
           {[ "compressor" := Blosc_zstd_1 ]} stale_world).1 =
  [Rechunked [2; 2];
   ToZarr "/tmp/l.zspy/Experiments/__unnamed__/data" true
          {[ "compressor" := Blosc_zstd_1 ]}].
Proof.
  split; [reflexivity|].
  destruct (_store_data_rechunks_whatever_the_chunks sample_lib lazy_zeros
              sample_dset sample_group "data" PNone
              {[ "compressor" := Blosc_zstd_1 ]} stale_world) as [_ Hlog].
  - discriminate.
  - reflexivity.
  - repeat constructor.
  - repeat constructor.
  - left. discriminate.
  - rewrite Hlog. reflexivity.
Defined.

(** ** Reading: failures and supported versions *)

Section ReaderOutcomes.

Variable version : string.
Variable LooseVersion : Type.
Variable payload : Type.
Variable HierarchicalReader_init : node -> M LooseVersion.
Variable version_gt : LooseVersion -> string -> bool.
Variable HierarchicalReader_read : ZspyReader LooseVersion -> bool -> M payload.

(** X14. When the file cannot be opened, or the reader cannot be made
  from it, [file_reader] raises that exception from the world in which
  it occurred: no version is compared, no warning is given and
  [reader.read] is not called. *)
Theorem file_reader_failure_propagates filename lazy kwds w w1 e :
zarr_open_mode filename (default (PStr "r") (kwds !! "mode")) w = (w1, Raise e) \/
(exists w0 f,
   zarr_open_mode filename (default (PStr "r") (kwds !! "mode")) w = (w0, Ok f) /\
   HierarchicalReader_init f w0 = (w1, Raise e)) ->
file_reader version LooseVersion payload HierarchicalReader_init version_gt
  HierarchicalReader_read filename lazy kwds w = (w1, Raise e).
Proof.
intros [Hopen|(w0 & f & Hopen & Hinit)]; unfold file_reader.
- apply bind_raise. exact Hopen.
- rewrite (bind_run _ _ _ _ _ Hopen).
  apply bind_raise. unfold ZspyReader_init. apply bind_raise. exact Hinit.
Qed.

End ReaderOutcomes.

(** Reading a path that holds nothing, in the default mode "r". *)
Lemma file_reader_failure_witness :
  file_reader "3.1" string (list string) sample_reader_init sample_version_gt
    sample_read "/tmp/none.zspy" false ∅ first_save =
  (first_save, Raise (OtherError "PathNotFoundError" "/tmp/none.zspy")).
Proof.
  apply (file_reader_failure_propagates "3.1" string (list string)
           sample_reader_init sample_version_gt sample_read
           "/tmp/none.zspy" false ∅ first_save).
  left. vm_compute. reflexivity.
Defined.

(** A reader of version "3.1" on the file of the first save. *)
Lemma file_reader_supported_version_witness :
  w_log (file_reader "3.1" string (list string) sample_reader_init sample_version_gt
           sample_read "/tmp/a.zspy" true ∅ first_save).1 = [].
Proof.
  rewrite (file_reader_supported_version "3.1" string (list string)
             sample_reader_init sample_version_gt sample_read
             "/tmp/a.zspy" true ∅ first_save first_save root_node first_save "3.1").
  - vm_compute. reflexivity.
  - vm_compute. reflexivity.
  - vm_compute. reflexivity.
  - vm_compute. reflexivity.
Defined.

(** ** The byte size under int64 arithmetic *)







(** ** Titles that share a group name *)

Lemma str_replace_idem c d s :
  c <> d -> str_replace c d (str_replace c d s) = str_replace c d s.
Proof.
  intros Hcd. apply str_replace_id. apply str_replace_absent. exact Hcd.
Qed.

Lemma str_replace_empty c d s :
  String.eqb (str_replace c d s) "" = String.eqb s "".
Proof. destruct s; reflexivity. Qed.

(** X16. The name of the experiment group is never empty, and it does not
    tell titles apart that differ only in "/" against "-": a title and
    the title with its "/" already replaced get the same name, and so do
    an empty title, no title and the title "__unnamed__". *)
Theorem experiment_group_name_collisions (t : string) (o : option string) :
  experiment_group_name o <> "" /\
  experiment_group_name (Some (str_replace "/" "-" t)) =
    experiment_group_name (Some t) /\
  experiment_group_name (Some "") = experiment_group_name None /\
  experiment_group_name (Some "__unnamed__") = experiment_group_name None.
Proof.
  split; [|split; [|split; reflexivity]].
  - rewrite experiment_group_name_eq. destruct o as [s|]; [|discriminate].
    destruct (String.eqb s "") eqn:Hs; [discriminate|].
    destruct s; [discriminate|]. discriminate.
  - rewrite !experiment_group_name_eq, str_replace_empty.
    destruct (String.eqb t ""); [reflexivity|].
    apply str_replace_idem. discriminate.
Qed.

(** ** The TIFF plugin *)

Lemma names_of_Ok (s : string) (ls : list Tiff.label) :
  Tiff.names_of s = Ok ls ->
  length ls = String.length s /\
  (forall i l, ls !! i = Some l ->
     exists c, String.get i s = Some c /\ Tiff.axes_label_codes c = Some l).
Proof.
  revert ls. induction s as [|c s IH]; intros ls H.
  - injection H as <-. split; [reflexivity|]. intros i l Hi. destruct i; discriminate.
  - cbn [Tiff.names_of] in H.
    destruct (Tiff.axes_label_codes c) as [l0|] eqn:Hc; [|discriminate].
    destruct (Tiff.names_of s) as [ls'|e]; [|discriminate].
    injection H as <-. destruct (IH ls' eq_refl) as [Hlen Hget].
    split; [simpl; rewrite Hlen; reflexivity|].
    intros [|i] l Hi.
    + injection Hi as <-. exists c. split; [reflexivity | exact Hc].
    + apply Hget. exact Hi.
Qed.

Lemma names_of_Raise (s : string) :
  (exists i c, String.get i s = Some c /\ Tiff.axes_label_codes c = None) ->
  exists c, Tiff.names_of s = Raise (KeyError (String c EmptyString)) /\
            Tiff.axes_label_codes c = None.
Proof.
  induction s as [|c s IH]; intros (i & c0 & Hget & Hnone).
  - destruct i; discriminate.
  - cbn [Tiff.names_of].
    destruct (Tiff.axes_label_codes c) as [l0|] eqn:Hc.
    + destruct i as [|i]; [injection Hget as ->; congruence|].
      destruct IH as (c' & -> & Hc'); [eauto|]. eauto.
    + eauto.
Qed.

Section TiffPlugin.

Variable rgbx2regular_array : ndarray -> ndarray.
Variable regular_array2rgbx : ndarray -> ndarray.
Variable TiffFile : string -> kwargs -> result Tiff.tiff_file.

Lemma tiff_writer_kwds filename signal kwds call :
Tiff.file_writer rgbx2regular_array filename signal kwds = Ok call ->
Tiff.call_kwds call =
(if negb (bool_decide (is_Some (kwds !! Tiff.description))) then
   if truthy (PStr (Tiff.title signal))
   then <["description" := PStr (Tiff.title signal)]> kwds
   else kwds
 else kwds).
Proof.
unfold Tiff.file_writer. intros H.
destruct (Tiff.is_rgbx signal);
  match type of H with
  | (if bool_decide ?P then _ else _) = _ => destruct (bool_decide P)
  end; try discriminate; injection H as <-; reflexivity.
Qed.

(** X17. The TIFF writer tests [description not in kwds] with the
  module's description text, not with the key "description": for a
  signal with a non-empty title the description handed to [imsave] is
  the title, also when the caller passed a description of their own;
  every other keyword goes through as given, and with an empty title
  all of them do. *)
Theorem tiff_title_overrides_description filename signal kwds call :
Tiff.file_writer rgbx2regular_array filename signal kwds = Ok call ->
(kwds !! Tiff.description = None -> Tiff.title signal <> "" ->
 Tiff.call_kwds call !! "description" = Some (PStr (Tiff.title signal))) /\
(Tiff.title signal = "" -> Tiff.call_kwds call = kwds) /\
(forall k, k <> "description" -> Tiff.call_kwds call !! k = kwds !! k).
Proof.
intros H. rewrite (tiff_writer_kwds _ _ _ _ H).
split; [|split].
- intros Hd Ht. rewrite Hd.
  rewrite bool_decide_eq_false_2 by (intros [? ?]; discriminate).
  cbn [negb truthy].
  destruct (String.eqb_spec (Tiff.title signal) ""); [contradiction|].
  apply lookup_insert_eq.
- intros ->. destruct (negb _); reflexivity.
- intros k Hk. destruct (negb _); [|reflexivity].
  destruct (truthy _); [|reflexivity].
  apply lookup_insert_ne. congruence.
Qed.

(** X18. The TIFF writer always passes [software="hyperspy"] and chooses
  [photometric] itself, "rgb" with the data converted by
  [rgbx2regular_array] for an rgbx signal and "minisblack" with the data
  as they are otherwise; a caller's keyword [software], [photometric],
  [filename] or [data] cannot change that, it makes the call a
  [TypeError]. *)
Theorem tiff_writer_fixes_photometric filename signal kwds :
(forall call,
   Tiff.file_writer rgbx2regular_array filename signal kwds = Ok call ->
   Tiff.call_filename call = filename /\
   Tiff.call_software call = "hyperspy" /\
   Tiff.call_photometric call =
     (if Tiff.is_rgbx signal then "rgb" else "minisblack") /\
   Tiff.call_data call =
     (if Tiff.is_rgbx signal then rgbx2regular_array (Tiff.data signal)
      else Tiff.data signal)) /\
(Exists (fun k => is_Some (kwds !! k))
        ["filename"; "data"; "software"; "photometric"] ->
 exists msg,
   Tiff.file_writer rgbx2regular_array filename signal kwds = Raise (TypeError msg)).
Proof.
split.
- intros call H. unfold Tiff.file_writer in H.
  destruct (Tiff.is_rgbx signal);
    match type of H with
    | (if bool_decide ?P then _ else _) = _ => destruct (bool_decide P)
    end; try discriminate; injection H as <-; repeat split.
- intros Hex. unfold Tiff.file_writer.
  assert (Hex' : forall kw' : kwargs,
            (forall k, k <> "description" -> kw' !! k = kwds !! k) ->
            Exists (fun k => is_Some (kw' !! k))
                   ["filename"; "data"; "software"; "photometric"]).
  { intros kw' Hkw. apply Exists_exists in Hex as (k & Hin & Hk).
    apply Exists_exists. exists k. split; [exact Hin|].
    rewrite Hkw; [exact Hk|].
    intros ->. repeat (apply elem_of_cons in Hin as [Hin|Hin]; [discriminate|]).
    inversion Hin. }
  destruct (Tiff.is_rgbx signal);
    (rewrite bool_decide_eq_true_2; [eexists; reflexivity|];
     apply Hex'; intros k Hk;
     destruct (negb _); [|reflexivity];
     destruct (truthy _); [|reflexivity];
     apply lookup_insert_ne; congruence).
Qed.

(** X19. A successful [file_reader] of the TIFF plugin returns one
  dictionary: its [mapped_parameters] always say record_by "image",
  whatever [record_by] was passed; it has one axis per extent of the
  data and axis code of the first series, as far as both go, the last
  code dropped for an rgb file; every axis carries the extent at its
  position and the label of its code in [axes_label_codes], "<undefined>"
  for the codes whose label is Undefined. *)
Theorem tiff_reader_axes filename record_by kwds tiff axes rest ds :
TiffFile filename kwds = Ok tiff ->
Tiff.tf_series tiff = axes :: rest ->
Tiff.file_reader regular_array2rgbx TiffFile filename record_by kwds = Ok ds ->
let codes := if Tiff.tf_is_rgb tiff then Tiff.drop_last axes else axes in
exists d,
  ds = [d] /\
  Tiff.rd_data d =
    (if Tiff.tf_is_rgb tiff then regular_array2rgbx (Tiff.tf_array tiff)
     else Tiff.tf_array tiff) /\
  Tiff.rd_mapped_parameters d =
    {[ "original_filename" := PStr filename; "record_by" := PStr "image";
       "signal_type" := PStr "" ]} /\
  length (Tiff.rd_axes d) =
    Nat.min (length (nd_shape (Tiff.rd_data d))) (String.length codes) /\
  (forall i size name, Tiff.rd_axes d !! i = Some (size, name) ->
     nd_shape (Tiff.rd_data d) !! i = Some size /\
     exists c l, String.get i codes = Some c /\
                 Tiff.axes_label_codes c = Some l /\
                 name = Tiff.unicode l).
Proof.
intros Hopen Hseries H codes.
unfold Tiff.file_reader in H. rewrite Hopen, Hseries in H.
assert (Hgen : forall dc,
  match Tiff.names_of codes with
  | Ok names =>
      match Tiff.tf_pages tiff with
      | [] => Raise (OtherError "IndexError" "list index out of range")
      | page :: _ =>
          Ok [Tiff.ReaderDict dc
                (zip_with (fun size name => (size, Tiff.unicode name))
                          (nd_shape dc) names)
                page
                {[ "original_filename" := PStr filename;
                   "record_by" := PStr "image"; "signal_type" := PStr "" ]}]
      end
  | Raise e => Raise e
  end = Ok ds ->
  exists d, ds = [d] /\ Tiff.rd_data d = dc /\
    Tiff.rd_mapped_parameters d =
      {[ "original_filename" := PStr filename; "record_by" := PStr "image";
         "signal_type" := PStr "" ]} /\
    length (Tiff.rd_axes d) =
      Nat.min (length (nd_shape (Tiff.rd_data d))) (String.length codes) /\
    (forall i size name, Tiff.rd_axes d !! i = Some (size, name) ->
       nd_shape (Tiff.rd_data d) !! i = Some size /\
       exists c l, String.get i codes = Some c /\
                   Tiff.axes_label_codes c = Some l /\
                   name = Tiff.unicode l)).
{ intros dc Hdc.
  destruct (Tiff.names_of codes) as [names|e] eqn:Hn; [|discriminate].
  destruct (Tiff.tf_pages tiff) as [|page pages]; [discriminate|].
  injection Hdc as <-. eexists. split; [reflexivity|].
  cbn [Tiff.rd_data Tiff.rd_mapped_parameters Tiff.rd_axes].
  destruct (names_of_Ok _ _ Hn) as [Hlen Hget].
  split; [reflexivity|]. split; [reflexivity|]. split.
  - rewrite length_zip_with, Hlen. reflexivity.
  - intros i size name Hi. rewrite lookup_zip_with in Hi.
    destruct (nd_shape dc !! i) as [sz|] eqn:Hsz; [|discriminate].
    destruct (names !! i) as [l|] eqn:Hl; [|discriminate].
    simpl in Hi. injection Hi as <- <-. split; [reflexivity|].
    destruct (Hget i l Hl) as (c & Hc & Hlab). eauto. }
subst codes. destruct (Tiff.tf_is_rgb tiff); apply Hgen; exact H.
Qed.

(** X20. An axis code of the first series that [axes_label_codes] does
  not list makes [file_reader] of the TIFF plugin fail with a
  [KeyError] on such a code; nothing is returned. *)
Theorem tiff_reader_unknown_axis_code filename record_by kwds tiff axes rest :
TiffFile filename kwds = Ok tiff ->
Tiff.tf_series tiff = axes :: rest ->
(exists i c,
   String.get i (if Tiff.tf_is_rgb tiff then Tiff.drop_last axes else axes) = Some c /\
   Tiff.axes_label_codes c = None) ->
exists c,
  Tiff.file_reader regular_array2rgbx TiffFile filename record_by kwds =
    Raise (KeyError (String c EmptyString)) /\
  Tiff.axes_label_codes c = None.
Proof.
intros Hopen Hseries Hbad.
unfold Tiff.file_reader. rewrite Hopen, Hseries.
destruct (Tiff.tf_is_rgb tiff);
  destruct (names_of_Raise _ Hbad) as (c & Hc & Hnone);
  exists c; rewrite Hc; split; [reflexivity | exact Hnone | reflexivity | exact Hnone].
Qed.

End TiffPlugin.

(** ** The TIFF plugin on a grey image *)

Lemma tiff_title_overrides_description_witness :
  Tiff.call_kwds
    (Tiff.Imsave "a.tif" grey_image "hyperspy" "minisblack"
       {[ "description" := PStr "NIO" ]}) !! "description" = Some (PStr "NIO") /\
  Tiff.file_writer same_array "a.tif" grey_signal {[ "description" := PStr "mine" ]} =
  Ok (Tiff.Imsave "a.tif" grey_image "hyperspy" "minisblack"
        {[ "description" := PStr "NIO" ]}).
Proof.
  assert (Hrun : Tiff.file_writer same_array "a.tif" grey_signal
                   {[ "description" := PStr "mine" ]} =
                 Ok (Tiff.Imsave "a.tif" grey_image "hyperspy" "minisblack"
                       {[ "description" := PStr "NIO" ]}))
    by (vm_compute; reflexivity).
  split; [|exact Hrun].
  destruct (tiff_title_overrides_description same_array "a.tif" grey_signal
              {[ "description" := PStr "mine" ]} _ Hrun) as (Hd & _ & _).
  apply Hd; [reflexivity | discriminate].
Defined.

Lemma tiff_writer_fixes_photometric_witness :
  Tiff.call_photometric
    (Tiff.Imsave "a.tif" grey_image "hyperspy" "minisblack"
       {[ "description" := PStr "NIO" ]}) = "minisblack" /\
  exists msg,
    Tiff.file_writer same_array "a.tif" grey_signal {[ "software" := PStr "mine" ]} =
    Raise (TypeError msg).
Proof.
  split.
  - destruct (tiff_writer_fixes_photometric same_array "a.tif" grey_signal ∅)
      as [Hok _].
    destruct (Hok (Tiff.Imsave "a.tif" grey_image "hyperspy" "minisblack"
                     {[ "description" := PStr "NIO" ]}))
      as (_ & _ & Hphoto & _).
    + vm_compute. reflexivity.
    + exact Hphoto.
  - destruct (tiff_writer_fixes_photometric same_array "a.tif" grey_signal
                {[ "software" := PStr "mine" ]}) as [_ Hcollide].
    apply Hcollide.
    apply Exists_cons_tl, Exists_cons_tl, Exists_cons_hd.
    eexists. reflexivity.
Defined.

Lemma tiff_reader_axes_witness :
  exists d,
    Tiff.file_reader same_array (grey_file "YX") "a.tif" "spectrum" ∅ = Ok [d] /\
    Tiff.rd_axes d = [(2, "height"); (3, "width")] /\
    Tiff.rd_mapped_parameters d !! "record_by" = Some (PStr "image").
Proof.
  destruct (tiff_reader_axes same_array (grey_file "YX") "a.tif" "spectrum" ∅
              (Tiff.TiffData grey_image ["YX"] false [ {[ "image_width" := PInt 3 ]} ])
              "YX" []
              [Tiff.ReaderDict grey_image [(2, "height"); (3, "width")]
                 {[ "image_width" := PInt 3 ]}
                 {[ "original_filename" := PStr "a.tif";
                    "record_by" := PStr "image"; "signal_type" := PStr "" ]}])
    as (d & Hd & _ & Hmp & _).
  - reflexivity.
  - reflexivity.
  - vm_compute. reflexivity.
  - injection Hd as <-. eexists. split; [vm_compute; reflexivity|].
    split; reflexivity.
Defined.

Lemma tiff_reader_unknown_axis_code_witness :
  Tiff.file_reader same_array (grey_file "YB") "a.tif" "image" ∅ =
  Raise (KeyError "B").
Proof.
  destruct (tiff_reader_unknown_axis_code same_array (grey_file "YB") "a.tif"
              "image" ∅
              (Tiff.TiffData grey_image ["YB"] false [ {[ "image_width" := PInt 3 ]} ])
              "YB" [])
    as (c & Hrun & _).
  - reflexivity.
  - reflexivity.
  - exists 1%nat, "B"%char. split; reflexivity.
  - vm_compute. reflexivity.
Defined.
